(** * VariableDb: a named-variable store with pickle persistence

    A shallow embedding of the two implementations found in the
    repository,

    - [variabledb/core.py]  (module [Core] below: set-based dirty registry),
    - [variabledb.py]       (module [Legacy] below: list-based dirty registry),

    together with the properties of the store that the specification
    states.  Python objects carry an identity ([oid]) next to their
    content, dictionaries live in a heap and are reached through
    references, and every method is a state transformer that may end
    with an exception. *)

From stdpp Require Import gmap strings list.
From Stdlib Require Import ZArith.

Open Scope string_scope.
Open Scope list_scope.

(** ** Python values *)

(** The content of an object, as far as the store can observe it. *)
Inductive payload :=
  | PNone
  | PInt (z : Z)
  | PStr (s : string)
  | POpaque (tag : nat).

#[global] Instance payload_eq_dec : EqDecision payload.
Proof. solve_decision. Defined.

(** An object is its identity (what [id(x)] returns) and its content. *)
Record pyobj := PyObj { oid : nat; content : payload }.

#[global] Instance pyobj_eq_dec : EqDecision pyobj.
Proof. solve_decision. Defined.

(** [a is b] *)
Definition is_ (a b : pyobj) : bool := Nat.eqb (oid a) (oid b).

(** [isinstance(a, str)] *)
Definition is_str (a : pyobj) : bool :=
  match content a with PStr _ => true | _ => false end.

(** ** Dictionaries

    A [dict] keeps its items in insertion order, one item per key. *)
Definition pydict := list (string * pyobj).

(** [d.get(k)] *)
Fixpoint dict_get (k : string) (d : pydict) : option pyobj :=
  match d with
  | [] => None
  | (k', v) :: d' => if String.eqb k k' then Some v else dict_get k d'
  end.

(** [k in d] *)
Definition dict_mem (k : string) (d : pydict) : bool :=
  match dict_get k d with Some _ => true | None => false end.

(** [d[k] = v]: an existing key keeps its position, a new key goes last. *)
Fixpoint dict_set (k : string) (v : pyobj) (d : pydict) : pydict :=
  match d with
  | [] => [(k, v)]
  | (k', v') :: d' =>
      if String.eqb k k' then (k, v) :: d' else (k', v') :: dict_set k v d'
  end.

(** [del d[k]] (for a key that is present) *)
Fixpoint dict_del (k : string) (d : pydict) : pydict :=
  match d with
  | [] => []
  | (k', v') :: d' =>
      if String.eqb k k' then dict_del k d' else (k', v') :: dict_del k d'
  end.

(** [d1 == d2] for dictionaries: the same keys, bound to equal contents,
    whatever the identities of the values and the order of the items. *)
Definition dict_eqv (d1 d2 : pydict) : Prop :=
  ∀ k, content <$> dict_get k d1 = content <$> dict_get k d2.

(** ** Exceptions *)

Inductive exn_class :=
  | Exception
  | TypeError
  | ValueError
  | KeyError
  | OSError
  | FileNotFoundError
  | PermissionError
  | PicklingError
  | UnpicklingError
  | EOFError
  | AttributeError.

#[global] Instance exn_class_eq_dec : EqDecision exn_class.
Proof. solve_decision. Defined.

Record exn := Exn { cls : exn_class; msg : string }.

#[global] Instance exn_eq_dec : EqDecision exn.
Proof. solve_decision. Defined.

(** The direct base class. *)
Definition base (c : exn_class) : option exn_class :=
  match c with
  | Exception => None
  | FileNotFoundError | PermissionError => Some OSError
  | _ => Some Exception
  end.

(** [issubclass(c, d)] (the hierarchy above has depth two). *)
Definition subclass (c d : exn_class) : bool :=
  bool_decide (c = d)
  || match base c with
     | None => false
     | Some p =>
         bool_decide (p = d)
         || match base p with
            | None => false
            | Some q => bool_decide (q = d)
            end
     end.

(** Does [except (c1, ..., cn)] handle [e]? *)
Definition handles (classes : list exn_class) (e : exn) : bool :=
  existsb (subclass (cls e)) classes.
Arguments handles : simpl never.

(** ** Computations that may raise *)

Inductive outcome (A : Type) :=
  | Return (a : A)
  | Raise (e : exn).
Arguments Return {A} a.
Arguments Raise {A} e.

(** A computation over a state [S]: the state survives an exception. *)
Definition M (S A : Type) : Type := S → outcome A * S.

Definition ret {S A} (a : A) : M S A := λ s, (Return a, s).

Definition raise {S A} (e : exn) : M S A := λ s, (Raise e, s).

Definition bind {S A B} (m : M S A) (k : A → M S B) : M S B :=
  λ s, match m s with
       | (Return a, s') => k a s'
       | (Raise e, s') => (Raise e, s')
       end.

Notation "'let!' x := m 'in' k" := (bind m (λ x, k))
  (at level 10, x name, m at level 200, k at level 200).
Notation "m >> k" := (bind m (λ _, k))
  (at level 100, k at level 200, right associativity).

Definition gets {S A} (f : S → A) : M S A := λ s, (Return (f s), s).

Definition modify {S} (f : S → S) : M S unit := λ s, (Return tt, f s).

(** [try: body except classes as e: handler(e)] *)
Definition try_except {S A} (body : M S A) (classes : list exn_class)
    (handler : exn → M S A) : M S A :=
  λ s, match body s with
       | (Return a, s') => (Return a, s')
       | (Raise e, s') =>
           if handles classes e then handler e s' else (Raise e, s')
       end.

(** [for x in xs: f(x)] over an immutable sequence. *)
Fixpoint for_each {S A} (xs : list A) (f : A → M S unit) : M S unit :=
  match xs with
  | [] => ret tt
  | x :: xs' => f x >> for_each xs' f
  end.

(** ** The world: heap, dirty registry, file system, log *)

Abbreviation loc := nat (only parsing).
Definition blob := list Byte.byte.

Inductive log_level := WARNING | ERROR.

(** One entry of the diagnostic log: level, text and the exception that
    is formatted into the text, when there is one. *)
Record log_record := LogRecord {
  level : log_level;
  text : string;
  cause : option exn
}.

(** [R] is the type of the class attribute [unsaved_files]. *)
Record world (R : Type) := World {
  heap : list pydict;            (* the dict objects, by reference *)
  unsaved_files : R;             (* VariableDb.unsaved_files *)
  files : gmap string blob;      (* regular files and their contents *)
  denied : gmap string exn;      (* paths that [open] refuses, and how *)
  log : list log_record          (* variabledb_log.log, oldest first *)
}.
Arguments World {R}.
Arguments heap {R}.
Arguments unsaved_files {R}.
Arguments files {R}.
Arguments denied {R}.
Arguments log {R}.

Section World.
Context {R : Type}.
Implicit Types w : world R.

Definition set_heap (f : list pydict → list pydict) w : world R :=
  World (f (heap w)) (unsaved_files w) (files w) (denied w) (log w).

Definition set_unsaved (f : R → R) w : world R :=
  World (heap w) (f (unsaved_files w)) (files w) (denied w) (log w).

Definition set_files (f : gmap string blob → gmap string blob) w : world R :=
  World (heap w) (unsaved_files w) (f (files w)) (denied w) (log w).

Definition set_log (f : list log_record → list log_record) w : world R :=
  World (heap w) (unsaved_files w) (files w) (denied w) (f (log w)).

(** The dict behind a reference.  Every reference the program holds
    comes from an allocation, so the default is never observed. *)
Definition deref w (l : loc) : pydict := default [] (heap w !! l).

(** A new dict object. *)
Definition alloc (d : pydict) : M (world R) loc :=
  λ w, (Return (length (heap w)), set_heap (λ h, h ++ [d]) w).

(** In-place mutation of the dict behind [l]. *)
Definition mutate (l : loc) (f : pydict → pydict) : M (world R) unit :=
  modify (λ w, set_heap (λ h, <[l := f (deref w l)]> h) w).

(** [logging.error(text)], [logging.warning(text)] *)
Definition logging (lv : log_level) (t : string) (c : option exn)
    : M (world R) unit :=
  modify (set_log (λ l, l ++ [LogRecord lv t c])).

(** [open(p, "wb")]: refused, or the file is created or truncated. *)
Definition open_wb (p : string) : M (world R) unit :=
  λ w, match denied w !! p with
       | Some e => (Raise e, w)
       | None => (Return tt, set_files (λ fs, <[p := []]> fs) w)
       end.

(** What reaches the file through the handle before it is closed. *)
Definition write (p : string) (b : blob) : M (world R) unit :=
  modify (set_files (λ fs, <[p := b]> fs)).

(** [open(p, "rb")] followed by reading the whole file. *)
Definition open_rb (p : string) : M (world R) blob :=
  λ w, match files w !! p with
       | None =>
           (Raise (Exn FileNotFoundError "No such file or directory"), w)
       | Some b =>
           match denied w !! p with
           | Some e => (Raise e, w)
           | None => (Return b, w)
           end
       end.

(** [os.path.exists(p)] *)
Definition os_path_exists (p : string) : M (world R) bool :=
  gets (λ w, bool_decide (is_Some (files w !! p))).
End World.

(** ** What both implementations share *)

(** [str.endswith] *)
Definition endswith (s suffix : string) : bool :=
  let n := String.length s in
  let m := String.length suffix in
  (m <=? n)%nat && String.eqb (String.substring (n - m) m s) suffix.

(** [check_file_name].  The argument is a [str] by its type, so the
    [TypeError] of the source cannot arise here. *)
Definition check_file_name (filename : string) : string :=
  if endswith filename ".db" then filename else filename +:+ ".db".

(** The [scope] argument of the constructor when it is not [None]. *)
Inductive scope_arg :=
  | ScopeDict (l : loc)         (* a dict, passed by reference *)
  | ScopeOther (o : pyobj).     (* anything else *)

(** An instance: [self.filename], [self.data], [self.scope]. *)
Record VariableDb := Instance {
  filename : string;
  data : loc;
  scope : loc
}.

(** The module's [globals()], the default scope, is the first object of
    the heap. *)
Definition globals_loc : loc := 0.

(** The first key of [items] whose value is the object [variable]. *)
Fixpoint first_bound (variable : pyobj) (items : pydict) : option string :=
  match items with
  | [] => None
  | (name, val) :: rest =>
      if is_ val variable then Some name else first_bound variable rest
  end.

(** The pickler, [dill].  It is not part of the repository: the store is
    parameterised by what [dump] writes and what [load] reads back. *)
Inductive dump_result :=
  | Dumped (b : blob)
  | DumpFailed (e : exn) (partial : blob).

Inductive pyvalue :=
  | VDict (d : pydict)
  | VOther (o : pyobj).

Inductive load_result :=
  | Loaded (v : pyvalue)
  | LoadFailed (e : exn).

Record pickler := Pickler {
  pickle_dump : pydict → dump_result;
  pickle_load : blob → load_result
}.

(** Entries are serializable when the pickler writes them and reads back
    a dictionary that is equal by value. *)
Definition serializable (P : pickler) (d : pydict) : Prop :=
  ∃ b d', pickle_dump P d = Dumped b
          ∧ pickle_load P b = Loaded (VDict d')
          ∧ dict_eqv d' d.

(** ** Methods

    A method runs on the pair of its instance and the world, so that a
    rebinding of [self.data] is kept when the method raises. *)
Definition meth (R A : Type) : Type := M (VariableDb * world R) A.

Section Methods.
Context {R : Type}.

(** [self] *)
Definition self : meth R VariableDb := gets fst.

(** A computation on the world alone, run from inside a method. *)
Definition liftW {A} (m : M (world R) A) : meth R A :=
  λ st, match m st.2 with (r, w') => (r, (st.1, w')) end.

(** [self.data = <the object at l>] *)
Definition set_data (l : loc) : meth R unit :=
  modify (λ st, (Instance (filename st.1) l (scope st.1), st.2)).

(** The dict objects behind [self.data] and [self.scope]. *)
Definition entries (st : VariableDb * world R) : pydict :=
  deref st.2 (data st.1).
Definition bindings (st : VariableDb * world R) : pydict :=
  deref st.2 (scope st.1).

Definition data_dict : meth R pydict := gets entries.
Definition scope_dict : meth R pydict := gets bindings.

(** What a constructor establishes: both references point into the heap
    and [self.data] is an object of its own. *)
Definition valid (st : VariableDb * world R) : Prop :=
  data st.1 < length (heap st.2)
  ∧ scope st.1 < length (heap st.2)
  ∧ data st.1 ≠ scope st.1.

(** [db.m(...)] from module-level code. *)
Definition call {A} (db : VariableDb) (m : meth R A)
    : M (world R) (A * VariableDb) :=
  λ w, match m (db, w) with
       | (Return a, (db', w')) => (Return (a, db'), w')
       | (Raise e, (_, w')) => (Raise e, w')
       end.

(** [with mgr as v: body].  Both [__exit__] methods return [None], so
    an exception of the body is raised again after the exit. *)
Definition with_ {A B} (enter : meth R B) (exit : meth R unit)
    (body : B → meth R A) : meth R A :=
  let! v := enter in
  λ st, match body v st with
        | (Return a, st') => (exit >> ret a) st'
        | (Raise e, st') =>
            match exit st' with
            | (Return _, st'') => (Raise e, st'')
            | (Raise e', st'') => (Raise e', st'')
            end
        end.
End Methods.

(** *** The methods whose text is the same in both files

    They differ only through [add_to_unsaved], which each file defines
    in its own way. *)
Section Common.
Context {R : Type}.
Variable P : pickler.
Variable add_to_unsaved : meth R unit.

(** [get_variable_name].  Iterating over the items of a dict and
    comparing identities raise nothing, so for a dict scope the
    [except (KeyError, TypeError)] clause is never entered. *)
Definition get_variable_name (variable : pyobj) : meth R (option string) :=
  let! items := scope_dict in
  ret (first_bound variable items).

Definition add (variable : pyobj) : meth R unit :=
  try_except
    (let! name := get_variable_name variable in
     match name with
     | None => raise (Exn ValueError "Could not determine variable name")
     | Some name =>
         let! d := data_dict in
         if dict_mem name d then
           raise (Exn KeyError ("Variable '" +:+ name +:+ "' already exists"))
         else
           let! s := self in
           liftW (mutate (data s) (dict_set name variable)) >>
           add_to_unsaved
     end)
    [ValueError; KeyError; TypeError]
    (λ e, liftW (logging ERROR "Failed to add variable" (Some e))).

Definition add_multiple (variables : list pyobj) : meth R unit :=
  try_except
    (for_each variables add >>
     add_to_unsaved)
    [ValueError; KeyError; TypeError]
    (λ e, liftW (logging ERROR "Failed to add multiple variables" (Some e))).

Definition delete (variable : pyobj) : meth R unit :=
  try_except
    (let! name := get_variable_name variable in
     match name with
     | None => raise (Exn ValueError "Could not determine variable name")
     | Some name =>
         let! d := data_dict in
         if negb (dict_mem name d) then
           raise (Exn KeyError
                    ("Variable '" +:+ name +:+ "' not found in dictionary"))
         else
           let! s := self in
           liftW (mutate (data s) (dict_del name)) >>
           add_to_unsaved
     end)
    [ValueError; KeyError]
    (λ e, liftW (logging ERROR "Failed to delete variable" (Some e))).

Definition replace (variable : pyobj) : meth R unit :=
  try_except
    (let! name := get_variable_name variable in
     match name with
     | None => raise (Exn ValueError "Could not determine variable name")
     | Some name =>
         let! d := data_dict in
         if negb (dict_mem name d) then
           raise (Exn KeyError ("Variable '" +:+ name +:+ "' does not exist"))
         else
           let! s := self in
           liftW (mutate (data s) (dict_set name variable)) >>
           add_to_unsaved
     end)
    [ValueError; KeyError]
    (λ e, liftW (logging ERROR "Failed to replace variable" (Some e))).

Definition load : meth R unit :=
  try_except
    (let! s := self in
     let! b := liftW (open_rb (filename s)) in
     match pickle_load P b with
     | LoadFailed e => raise e
     | Loaded (VOther _) =>
         raise (Exn ValueError "Loaded data is not a dictionary")
     | Loaded (VDict d) =>
         let! l := liftW (alloc d) in
         set_data l >>
         add_to_unsaved
     end)
    [FileNotFoundError; UnpicklingError; ValueError]
    (λ e, let! s := self in
          liftW (logging ERROR ("Failed to load file " +:+ filename s) (Some e))).

Definition clear : meth R unit :=
  let! s := self in
  liftW (mutate (data s) (λ _, [])) >>
  add_to_unsaved.
End Common.

(** ** [variabledb/core.py] *)
Module Core.

(** [unsaved_files = set()] *)
Abbreviation registry := (gset string) (only parsing).

Definition add_to_unsaved : meth registry unit :=
  let! s := self in
  liftW (modify (set_unsaved (λ r, {[filename s]} ∪ r))).

Definition __init__ (filename : string) (scope : option scope_arg)
    : M (world registry) VariableDb :=
  let fn := check_file_name filename in
  let! d := alloc [] in
  let! sc := match scope with
             | None => ret globals_loc
             | Some (ScopeDict l) => ret l
             | Some (ScopeOther _) =>
                 raise (Exn TypeError "scope must be a dictionary")
             end in
  modify (set_unsaved (λ r, {[fn]} ∪ r)) >>
  ret (Instance fn d sc).

Definition get_variable_name := get_variable_name (R := registry).
Definition add := add add_to_unsaved.
Definition add_multiple := add_multiple add_to_unsaved.
Definition delete := delete add_to_unsaved.
Definition replace := replace add_to_unsaved.
Definition clear := clear add_to_unsaved.
Definition load (P : pickler) := load P add_to_unsaved.

Definition add_by_name (var_name : string) : meth registry unit :=
  let! sc := scope_dict in
  if negb (dict_mem var_name sc) then
    liftW (logging ERROR
             ("Variable '" +:+ var_name +:+ "' not found in scope") None) >>
    raise (Exn KeyError ("Variable '" +:+ var_name +:+ "' not found in scope"))
  else
    let! d := data_dict in
    if dict_mem var_name d then
      liftW (logging ERROR
               ("Variable '" +:+ var_name +:+ "' already exists in data")
               None) >>
      raise (Exn KeyError ("Variable '" +:+ var_name +:+ "' already exists"))
    else
      match dict_get var_name sc with
      | None => raise (Exn KeyError var_name)
      | Some v =>
          let! s := self in
          liftW (mutate (data s) (dict_set var_name v)) >>
          add_to_unsaved
      end.

Definition save (P : pickler) : meth registry unit :=
  try_except
    (let! s := self in
     liftW (open_wb (filename s)) >>
     let! d := data_dict in
     match pickle_dump P d with
     | Dumped b => liftW (write (filename s) b)
     | DumpFailed e partial => liftW (write (filename s) partial) >> raise e
     end >>
     liftW (modify (set_unsaved (λ r, r ∖ {[filename s]}))))
    [OSError; PicklingError]
    (λ e, let! s := self in
          liftW (logging ERROR ("Failed to save to " +:+ filename s) (Some e))).

Definition __enter__ (P : pickler) : meth registry unit :=
  try_except
    (let! s := self in
     let! present := liftW (os_path_exists (filename s)) in
     if negb present then add_to_unsaved else load P)
    [Exception]
    (λ e, liftW (logging ERROR "Failed to load file in __enter__" (Some e)) >>
          raise e).

Definition __exit__ (P : pickler) : meth registry unit :=
  try_except
    (save P)
    [Exception]
    (λ e, liftW (logging ERROR "Failed to save on context exit" (Some e))).

(** The body of the loop of [save_all_open_files], for one path. *)
Definition sweep_path (P : pickler) (filename : string)
    : M (world registry) unit :=
  let! db := __init__ filename None in
  call db (with_ (__enter__ P) (__exit__ P) (λ _, load P >> save P)) >>
  ret tt.

(** [save_all_open_files], for a given iteration order of the copy. *)
Definition save_all_in (P : pickler) (snapshot : list string)
    : M (world registry) unit :=
  for_each snapshot (sweep_path P).

(** [save_all_open_files]: the copy is taken once, before the loop. *)
Definition save_all_open_files (P : pickler) : M (world registry) unit :=
  let! snapshot := gets (λ w, elements (unsaved_files w)) in
  save_all_in P snapshot.

End Core.

(** ** [variabledb.py] *)
Module Legacy.

(** [unsaved_files = []] *)
Abbreviation registry := (list string) (only parsing).

(** [l.remove(x)]: the first occurrence of [x] goes. *)
Fixpoint list_remove (x : string) (l : list string) : list string :=
  match l with
  | [] => []
  | y :: l' => if String.eqb x y then l' else y :: list_remove x l'
  end.

Definition add_to_unsaved : meth registry unit :=
  let! s := self in
  liftW (modify (set_unsaved (λ r,
    if bool_decide (filename s ∈ r) then r else r ++ [filename s]))).

Definition __init__ (filename : string) (scope : option scope_arg)
    : M (world registry) VariableDb :=
  let fn := check_file_name filename in
  let! d := alloc [] in
  let! sc := match scope with
             | None => ret globals_loc
             | Some (ScopeDict l) => ret l
             | Some (ScopeOther _) =>
                 raise (Exn TypeError "scope must be a dictionary")
             end in
  modify (set_unsaved (λ r, r ++ [fn])) >>
  ret (Instance fn d sc).

Definition get_variable_name := get_variable_name (R := registry).
Definition add := add add_to_unsaved.
Definition add_multiple := add_multiple add_to_unsaved.
Definition delete := delete add_to_unsaved.
Definition replace := replace add_to_unsaved.
Definition clear := clear add_to_unsaved.
Definition load (P : pickler) := load P add_to_unsaved.

(** Here the registry is updated inside the [with] block. *)
Definition save (P : pickler) : meth registry unit :=
  try_except
    (let! s := self in
     liftW (open_wb (filename s)) >>
     let! d := data_dict in
     match pickle_dump P d with
     | Dumped b => liftW (write (filename s) b)
     | DumpFailed e partial => liftW (write (filename s) partial) >> raise e
     end >>
     liftW (modify (set_unsaved (λ r,
       if bool_decide (filename s ∈ r) then list_remove (filename s) r
       else r))))
    [OSError; PicklingError]
    (λ e, let! s := self in
          liftW (logging ERROR ("Failed to save to " +:+ filename s) (Some e))).

(** [__enter__] returns [self] ([true]) or, after an exception that it
    logs and drops, falls off its end and returns [None] ([false]). *)
Definition __enter__ (P : pickler) : meth registry bool :=
  try_except
    (let! s := self in
     let! present := liftW (os_path_exists (filename s)) in
     if negb present then add_to_unsaved >> ret true
     else load P >> ret true)
    [Exception]
    (λ e, liftW (logging ERROR "Failed to save on context exit" (Some e)) >>
          ret false).

Definition __exit__ (P : pickler) : meth registry unit :=
  try_except
    (save P)
    [Exception]
    (λ e, liftW (logging ERROR "Failed to save on context exit" (Some e))).

(** The body of the loop of [save_all_open_files], for one path. *)
Definition sweep_path (P : pickler) (i : string) : M (world registry) unit :=
  let! db := __init__ i None in
  call db
    (with_ (__enter__ P) (__exit__ P)
       (λ file : bool,
          if file then save P
          else raise (Exn AttributeError
                        "'NoneType' object has no attribute 'save'"))) >>
  ret tt.

(** [for i in VariableDb.unsaved_files: ...] walks the live list by
    index: each round reads the element at the index in the list as it
    is then, and stops when the index has reached the end.  The loop
    need not end, hence the fuel; [None] is "out of fuel". *)
Fixpoint save_all_from (P : pickler) (fuel idx : nat) (w : world registry)
    : option (outcome unit * world registry) :=
  match fuel with
  | 0 => None
  | S fuel' =>
      match unsaved_files w !! idx with
      | None => Some (Return tt, w)
      | Some i =>
          match sweep_path P i w with
          | (Return _, w') => save_all_from P fuel' (S idx) w'
          | (Raise e, w') => Some (Raise e, w')
          end
      end
  end.

Definition save_all_open_files (P : pickler) (fuel : nat)
    : world registry → option (outcome unit * world registry) :=
  save_all_from P fuel 0.

End Legacy.

(** ** Lookups that the specification adds *)
Section Lookup.
Context {R : Type}.

(** Modelled from the spec: [get(name, default)], which neither
    implementation defines (their tests call it): "returns
    [entries[name]] if present, else [default]". *)
Definition get (name : string) (default : pyobj) : meth R pyobj :=
  let! d := data_dict in
  ret (match dict_get name d with Some v => v | None => default end).

(** Modelled from the spec: the container-style lookup [store[name]],
    which neither implementation defines (their tests use it): it "is
    equivalent but fails with [KeyNotFoundError] when absent (no
    default)". *)
Definition __getitem__ (name : string) : meth R pyobj :=
  let! d := data_dict in
  match dict_get name d with
  | Some v => ret v
  | None => raise (Exn KeyError name)
  end.
End Lookup.

(** ** Sample data *)

(** A pickler for the samples: a dictionary whose keys are shorter than
    256 characters and whose values are integers from 0 to 255 is
    written as, for every item, the length of the key, its characters
    and the value; anything else is refused. *)
Module Sample.

Definition byte_of_nat (n : nat) : Byte.byte :=
  default Byte.x00 (Byte.of_nat n).

Definition bytes_of_string (s : string) : list Byte.byte :=
  String.list_byte_of_string s.

Fixpoint encode (d : pydict) : option blob :=
  match d with
  | [] => Some []
  | (k, PyObj _ (PInt z)) :: d' =>
      if bool_decide (String.length k < 256 ∧ (0 ≤ z < 256)%Z) then
        rest ← encode d';
        Some (byte_of_nat (String.length k) :: bytes_of_string k
              ++ byte_of_nat (Z.to_nat z) :: rest)
      else None
  | _ => None
  end.

(** Objects made by [decode] get their identities from 1000 on. *)
Fixpoint decode (fuel : nat) (next : nat) (b : blob) : option pydict :=
  match fuel, b with
  | _, [] => Some []
  | 0, _ => None
  | S fuel', n :: b' =>
      let len := Byte.to_nat n in
      let key := String.string_of_list_byte (take len b') in
      match drop len b' with
      | [] => None
      | v :: b'' =>
          rest ← decode fuel' (S next) b'';
          Some ((key, PyObj next (PInt (Z.of_nat (Byte.to_nat v)))) :: rest)
      end
  end.

Definition dump (d : pydict) : dump_result :=
  match encode d with
  | Some b => Dumped b
  | None => DumpFailed (Exn PicklingError "Can't pickle") []
  end.

Definition undump (b : blob) : load_result :=
  match decode (length b) 1000 b with
  | Some d => Loaded (VDict d)
  | None => LoadFailed (Exn UnpicklingError "invalid load key")
  end.

Definition P : pickler := Pickler dump undump.

(** [globals()] of the module, as far as the samples need it. *)
Definition module_globals : pydict :=
  [("pickle", PyObj 1 (POpaque 1)); ("logging", PyObj 2 (POpaque 2));
   ("os", PyObj 3 (POpaque 3)); ("check_file_name", PyObj 4 (POpaque 4));
   ("VariableDb", PyObj 5 (POpaque 5));
   ("save_all_open_files", PyObj 6 (POpaque 6))].

(** A world right after the import of the module, with [scope] as the
    second object of the heap. *)
Definition start {R} (r : R) (scope : pydict) : world R :=
  World [module_globals; scope] r ∅ ∅ [].

Definition int (id : nat) (z : Z) : pyobj := PyObj id (PInt z).

End Sample.

(** ** Auxiliary definitions for the statements *)

(** The log record that [add] writes for the exception [e]. *)
Definition add_failed (e : exn) : log_record :=
  LogRecord ERROR "Failed to add variable" (Some e).

(** [add] applied to each value in turn, whatever each call resulted in. *)
Definition add_each (vs : list pyobj) (st : VariableDb * world (gset string))
    : VariableDb * world (gset string) :=
  foldl (λ st v, (Core.add v st).2) st vs.

(** How an attempt to save would go: what [open] and [pickle.dump] do
    for this instance in this world. *)
Inductive save_result :=
  | Saved (b : blob)
  | SaveFailed (e : exn).

Definition save_attempt {R} (P : pickler) (st : VariableDb * world R)
    : save_result :=
  match denied st.2 !! filename st.1 with
  | Some e => SaveFailed e
  | None =>
      match pickle_dump P (entries st) with
      | Dumped b => Saved b
      | DumpFailed e _ => SaveFailed e
      end
  end.

(** The log record that [save] of the store on [path] writes for the
    exception [e]. *)
Definition save_failed (path : string) (e : exn) : log_record :=
  LogRecord ERROR ("Failed to save to " +:+ path) (Some e).

(** [m] relates every state to the state it leaves, whether it returns
    or raises. *)
Definition preserves {S A} (I : S → S → Prop) (m : M S A) : Prop :=
  ∀ s, I s (m s).2.

(** The operations of a store. *)
Inductive op :=
  | OpGetVariableName (variable : pyobj)
  | OpAdd (variable : pyobj)
  | OpAddByName (var_name : string)
  | OpAddMultiple (variables : list pyobj)
  | OpDelete (variable : pyobj)
  | OpReplace (variable : pyobj)
  | OpSave
  | OpLoad
  | OpClear
  | OpEnter
  | OpExit.

Definition run_op (P : pickler) (o : op) : meth (gset string) unit :=
  match o with
  | OpGetVariableName v => Core.get_variable_name v >> ret tt
  | OpAdd v => Core.add v
  | OpAddByName n => Core.add_by_name n
  | OpAddMultiple vs => Core.add_multiple vs
  | OpDelete v => Core.delete v
  | OpReplace v => Core.replace v
  | OpSave => Core.save P
  | OpLoad => Core.load P
  | OpClear => Core.clear
  | OpEnter => Core.__enter__ P
  | OpExit => Core.__exit__ P
  end.

(** A caller runs operations one after the other, going on after an
    exception if it wants to. *)
Definition run_ops (P : pickler) (ops : list op)
    (st : VariableDb * world (gset string)) : VariableDb * world (gset string) :=
  foldl (λ st o, (run_op P o st).2) st ops.

(** The scope is the same object, with the same items, as before. *)
Definition scope_kept {R} (st st' : VariableDb * world R) : Prop :=
  valid st →
  valid st' ∧ scope st'.1 = scope st.1 ∧ bindings st' = bindings st.

(** No path leaves the dirty registry. *)
Definition registry_grows (st st' : VariableDb * world (gset string)) : Prop :=
  unsaved_files st.2 ⊆ unsaved_files st'.2.

(** The log record that [delete] writes for the exception [e]. *)
Definition delete_failed (e : exn) : log_record :=
  LogRecord ERROR "Failed to delete variable" (Some e).

(** ** Concrete stores *)
Module Scenario.
Import Sample.

(** [VariableDb(path, scope)] in a world whose second heap object is
    the dict [scope], as a method state. *)
Definition constructed (path : string) (scope : pydict)
    : VariableDb * world (gset string) :=
  match Core.__init__ path (Some (ScopeDict 1)) (start ∅ scope) with
  | (Return db, w) => (db, w)
  | (Raise _, w) => (Instance path 0 0, w)
  end.

(** One object bound under two names: [a = b = 7]. *)
Definition seven : pyobj := int 70 7.
Definition two_names : pydict := [("a", seven); ("b", seven)].

(** [x_val = 100] *)
Definition hundred : pyobj := int 60 100.
Definition x_val_scope : pydict := [("x_val", hundred)].

(** The value [123], bound nowhere. *)
Definition stray : pyobj := int 50 123.

(** [a = 1; b = 2] *)
Definition one : pyobj := int 81 1.
Definition two : pyobj := int 82 2.
Definition a_b_scope : pydict := [("a", one); ("b", two)].

(** Two stores of [variabledb.py] on the same path, [VariableDb("a")]
    twice: the instances and the world they leave. *)
Definition legacy_twice : VariableDb * VariableDb * world (list string) :=
  match Legacy.__init__ "a" None (start [] []) with
  | (Return db1, w1) =>
      match Legacy.__init__ "a" None w1 with
      | (Return db2, w2) => (db1, db2, w2)
      | (Raise _, w2) => (db1, db1, w2)
      end
  | (Raise _, w1) => (Instance "a" 0 0, Instance "a" 0 0, w1)
  end.

(** A world in which [open] refuses [a.db], and [VariableDb("a")] of
    [variabledb.py] constructed in it. *)
Definition refused_world : world (list string) :=
  World [module_globals] [] ∅
    {["a.db" := Exn PermissionError "Permission denied"]} [].

Definition legacy_refused : world (list string) :=
  (Legacy.__init__ "a" None refused_world).2.

(** Two stores of [variabledb.py], [VariableDb("a")] and
    [VariableDb("b")]: the world they leave. *)
Definition legacy_a_b : world (list string) :=
  match Legacy.__init__ "a" None (start [] []) with
  | (Return _, w1) => (Legacy.__init__ "b" None w1).2
  | (Raise _, w1) => w1
  end.

(** The same two stores in [variabledb/core.py]. *)
Definition core_a_b : world (gset string) :=
  match Core.__init__ "a" None (start ∅ []) with
  | (Return _, w1) => (Core.__init__ "b" None w1).2
  | (Raise _, w1) => w1
  end.

End Scenario.

(** ** Two statements of the specification, as they are worded *)

(** [add(v)] then looking up any name [n] that binds [v] in the scope. *)
Definition add_then_lookup_as_stated
    (st : VariableDb * world (gset string)) (v : pyobj) (n : string) : Prop :=
  (∃ val, dict_get n (bindings st) = Some val ∧ is_ val v = true) →
  dict_mem n (entries st) = false →
  dict_get n (entries (Core.add v st).2) = Some v.

(** [delete] of a value that is not a string ends with an exception of
    class [TypeError]. *)
Definition delete_rejects_non_string
    (st : VariableDb * world (gset string)) (v : pyobj) : Prop :=
  is_str v = false →
  ∃ e, (Core.delete v st).1 = Raise e ∧ subclass (cls e) TypeError = true.

(** The file system only gains files, and what [open] refuses and the
    path of the instance stay as they are. *)
Definition files_kept {R} (st st' : VariableDb * world R) : Prop :=
  filename st'.1 = filename st.1
  ∧ denied st'.2 = denied st.2
  ∧ dom (files st.2) ⊆ dom (files st'.2).

(** The same for module-level code. *)
Definition files_kept_world {R} (w w' : world R) : Prop :=
  denied w' = denied w ∧ dom (files w) ⊆ dom (files w').

(** No path leaves the list-based registry. *)
Definition legacy_registry_grows
    (st st' : VariableDb * world (list string)) : Prop :=
  ∀ p, p ∈ unsaved_files st.2 → p ∈ unsaved_files st'.2.

(** ** Further definitions *)

Section MoreMethods.
Context {R : Type}.

(** [__len__] *)
Definition __len__ : meth R nat :=
  let! d := data_dict in
  ret (length d).
End MoreMethods.

(** A dict holds each key once. *)
Definition dict_wf (d : pydict) : Prop := NoDup d.*1.

(** The log record that [replace] writes for the exception [e]. *)
Definition replace_failed (e : exn) : log_record :=
  LogRecord ERROR "Failed to replace variable" (Some e).

(** The log record that [load] of the store on [path] writes for the
    exception [e]. *)
Definition load_failed (path : string) (e : exn) : log_record :=
  LogRecord ERROR ("Failed to load file " +:+ path) (Some e).

(** How an attempt to load would go: what [open] and [pickle.load] do
    for this instance in this world. *)
Inductive load_attempt_result :=
  | LoadedDict (d : pydict)
  | LoadError (e : exn).

Definition load_attempt {R} (P : pickler) (st : VariableDb * world R)
    : load_attempt_result :=
  match files st.2 !! filename st.1 with
  | None => LoadError (Exn FileNotFoundError "No such file or directory")
  | Some b =>
      match denied st.2 !! filename st.1 with
      | Some e => LoadError e
      | None =>
          match pickle_load P b with
          | LoadFailed e => LoadError e
          | Loaded (VOther _) =>
              LoadError (Exn ValueError "Loaded data is not a dictionary")
          | Loaded (VDict d) => LoadedDict d
          end
      end
  end.

(** An empty [with] block on a store: [with db: pass]. *)
Definition with_pass (P : pickler) : meth (gset string) unit :=
  with_ (Core.__enter__ P) (Core.__exit__ P) (λ _, ret tt).

(** A path leaves or joins the registry only if it is the path of the
    instance, which stays the same. *)
Definition registry_only_self
    (st st' : VariableDb * world (gset string)) : Prop :=
  filename st'.1 = filename st.1
  ∧ unsaved_files st'.2 ∖ {[filename st.1]}
    = unsaved_files st.2 ∖ {[filename st.1]}.

(** The same for module-level code and a given path. *)
Definition registry_only (p : string) (w w' : world (gset string)) : Prop :=
  unsaved_files w' ∖ {[p]} = unsaved_files w ∖ {[p]}.

(** What the pickler reads back, and the empty dict, it can write. *)
Definition redumpable (P : pickler) : Prop :=
  (∃ b0, pickle_dump P [] = Dumped b0)
  ∧ ∀ b d, pickle_load P b = Loaded (VDict d) →
           ∃ b', pickle_dump P d = Dumped b'.

(** The pickler can write the entries of the store. *)
Definition dumpable (P : pickler) (st : VariableDb * world (gset string))
    : Prop :=
  ∃ b, pickle_dump P (entries st) = Dumped b.

(** The objects of the heap other than [self.data] stay as they are;
    [self.data] is the same object or a new one. *)
Definition others_kept {R} (st st' : VariableDb * world R) : Prop :=
  valid st →
  valid st'
  ∧ (length (heap st.2) ≤ length (heap st'.2))%nat
  ∧ (data st'.1 = data st.1 ∨ (length (heap st.2) ≤ data st'.1)%nat)
  ∧ ∀ l, l < length (heap st.2) → l ≠ data st.1 →
         deref st'.2 l = deref st.2 l.

(** ** Further concrete stores *)
Module Disk.
Import Sample Scenario.

(** A store on [t.db] that holds [a = 1], in a world where [t.db]
    holds [junk] and [open] may refuse it. *)
Definition on_disk (junk : blob) (refusal : gmap string exn)
    : VariableDb * world (gset string) :=
  (Instance "t.db" 2 1,
   World [module_globals; a_b_scope; [("a", one)]] ∅ {["t.db" := junk]}
     refusal []).

(** A store whose only entry, a string, the sample pickler refuses. *)
Definition unpicklable : VariableDb * world (gset string) :=
  (Instance "t.db" 2 1,
   World [module_globals; []; [("s", PyObj 90 (PStr "text"))]] ∅
     {["t.db" := [Byte.x01; Byte.x61; Byte.x05]]} ∅ []).

(** The sample pickler with the behaviour of [pickle.load] on a
    truncated file: what cannot be decoded is an [EOFError]. *)
Definition truncating : pickler :=
  Pickler dump
    (λ b, match decode (length b) 1000 b with
          | Some d => Loaded (VDict d)
          | None => LoadFailed (Exn EOFError "Ran out of input")
          end).

(** A world of [variabledb.py] in which the registered [a.db] holds a
    truncated pickle. *)
Definition legacy_truncated : world (list string) :=
  World [module_globals] ["a.db"] {["a.db" := [Byte.x01]]} ∅ [].

(** A store on [a.db] that holds [a = 1] and was never saved. *)
Definition unsaved_store : VariableDb * world (gset string) :=
  (Core.add one (constructed "a" a_b_scope)).2.

(** Two stores on the path [t.db], the first of which holds [a = 1]:
    the first store and the second, with the world they share. *)
Definition two_stores
    : VariableDb * VariableDb * world (gset string) :=
  match Core.__init__ "t" (Some (ScopeDict 1))
          (constructed "t" a_b_scope).2 with
  | (Return db2, w) => ((constructed "t" a_b_scope).1, db2, w)
  | (Raise _, w) =>
      ((constructed "t" a_b_scope).1,
       (constructed "t" a_b_scope).1, w)
  end.

End Disk.

(** * Properties *)

(** ** Dictionaries *)

Section DictFacts.
Implicit Types (d : pydict) (k : string) (v : pyobj).

Lemma dict_get_set_eq k v d : dict_get k (dict_set k v d) = Some v.
Proof.
  induction d as [|[k' v'] d IH]; simpl.
  - by rewrite String.eqb_refl.
  - destruct (String.eqb_spec k k') as [->|Hne]; simpl.
    + by rewrite String.eqb_refl.
    + by destruct (String.eqb_spec k k').
Qed.

Lemma dict_get_set_ne k k' v d :
  k ≠ k' → dict_get k' (dict_set k v d) = dict_get k' d.
Proof.
  intros Hne. induction d as [|[k0 v0] d IH]; simpl.
  - by destruct (String.eqb_spec k' k) as [->|].
  - destruct (String.eqb_spec k k0) as [->|]; simpl.
    + by destruct (String.eqb_spec k' k0) as [->|].
    + by rewrite IH.
Qed.

Lemma dict_get_del_eq k d : dict_get k (dict_del k d) = None.
Proof.
  induction d as [|[k' v'] d IH]; simpl; [done|].
  destruct (String.eqb_spec k k') as [->|Hne]; simpl; [done|].
  by destruct (String.eqb_spec k k').
Qed.

Lemma dict_get_del_ne k k' d :
  k ≠ k' → dict_get k' (dict_del k d) = dict_get k' d.
Proof.
  intros Hne. induction d as [|[k0 v0] d IH]; simpl; [done|].
  destruct (String.eqb_spec k k0) as [->|]; simpl.
  - by destruct (String.eqb_spec k' k0) as [->|].
  - by rewrite IH.
Qed.

Lemma dict_mem_true k d : dict_mem k d = true ↔ is_Some (dict_get k d).
Proof. unfold dict_mem. destruct (dict_get k d); split; eauto; done. Qed.

Lemma dict_mem_false k d : dict_mem k d = false ↔ dict_get k d = None.
Proof. unfold dict_mem. by destruct (dict_get k d). Qed.

Lemma first_bound_Some v d n :
  first_bound v d = Some n → ∃ val, (n, val) ∈ d ∧ is_ val v = true.
Proof.
  induction d as [|[k x] d IH]; simpl; [done|].
  destruct (is_ x v) eqn:E.
  - intros [= <-]. exists x. split; [left|done].
  - intros H. destruct (IH H) as (val & ? & ?). exists val. split; [by right|done].
Qed.

Lemma first_bound_None v d :
  first_bound v d = None ↔ ∀ n val, (n, val) ∈ d → is_ val v = false.
Proof.
  induction d as [|[k x] d IH]; simpl.
  - split; [|done]. intros _ n val H. by apply elem_of_nil in H.
  - destruct (is_ x v) eqn:E.
    + split; [done|]. intros H. specialize (H k x). rewrite E in H. discriminate H. left.
    + rewrite IH. split.
      * intros H n val [[= -> ->]|Hin]%elem_of_cons; eauto.
      * intros H n val Hin. apply (H n). by right.
Qed.
End DictFacts.

(** ** File names *)

Lemma substring_all t : String.substring 0 (String.length t) t = t.
Proof. induction t as [|a t IH]; simpl; [done|]. by rewrite IH. Qed.

Lemma substring_skip s t :
  String.substring (String.length s) (String.length t) (s +:+ t) = t.
Proof. induction s as [|a s IH]; simpl; [apply substring_all|done]. Qed.

Lemma length_app_string s t : String.length (s +:+ t) = String.length s + String.length t.
Proof. induction s as [|a s IH]; simpl; [done|]. by rewrite IH. Qed.

Lemma endswith_app s t : endswith (s +:+ t) t = true.
Proof.
  unfold endswith. rewrite length_app_string.
  replace (String.length s + String.length t - String.length t) with (String.length s) by lia.
  rewrite substring_skip, String.eqb_refl, andb_true_r.
  apply Nat.leb_le. lia.
Qed.

Lemma check_file_name_endswith p : endswith (check_file_name p) ".db" = true.
Proof.
  unfold check_file_name. destruct (endswith p ".db") eqn:E; [done|apply endswith_app].
Qed.



(** ** The heap *)
Section HeapFacts.
Context {R : Type}.
Implicit Types (w : world R) (l : nat).

Lemma deref_mutate_eq w l f :
  l < length (heap w) →
  deref (set_heap (λ h, <[l := f (deref w l)]> h) w) l = f (deref w l).
Proof.
  intros Hl. unfold deref at 1. simpl.
  by rewrite list_lookup_insert_eq.
Qed.

Lemma deref_mutate_ne w l l' f :
  l ≠ l' →
  deref (set_heap (λ h, <[l := f (deref w l)]> h) w) l' = deref w l'.
Proof.
  intros Hne. unfold deref at 1. simpl.
  by rewrite list_lookup_insert_ne.
Qed.

Lemma deref_alloc_old w l d :
  l < length (heap w) →
  deref (set_heap (λ h, h ++ [d]) w) l = deref w l.
Proof.
  intros Hl. unfold deref. simpl. by rewrite lookup_app_l.
Qed.

Lemma deref_alloc_new w d :
  deref (set_heap (λ h, h ++ [d]) w) (length (heap w)) = d.
Proof.
  unfold deref. simpl.
  rewrite (lookup_app_r (heap w) [d]) by done.
  by rewrite Nat.sub_diag.
Qed.
End HeapFacts.

(** ** [add] *)
Section AddFacts.
Implicit Types (st : VariableDb * world (gset string)) (v : pyobj).

Lemma add_unresolved v st :
  first_bound v (bindings st) = None →
  Core.add v st =
    (Return tt,
     (st.1, set_log (λ l, l ++ [add_failed
        (Exn ValueError "Could not determine variable name")]) st.2)).
Proof.
  intros H. destruct st as [s w].
  unfold Core.add, add, try_except, bind, get_variable_name, scope_dict, gets.
  simpl in *. rewrite H. reflexivity.
Qed.

Lemma add_duplicate v st n :
  first_bound v (bindings st) = Some n →
  dict_mem n (entries st) = true →
  Core.add v st =
    (Return tt,
     (st.1, set_log (λ l, l ++ [add_failed
        (Exn KeyError ("Variable '" +:+ n +:+ "' already exists"))]) st.2)).
Proof.
  intros H1 H2. destruct st as [s w].
  unfold Core.add, add, try_except, bind, get_variable_name, scope_dict,
    data_dict, gets.
  simpl in *. rewrite H1. simpl. rewrite H2. reflexivity.
Qed.

Lemma add_inserts v st n :
  first_bound v (bindings st) = Some n →
  dict_mem n (entries st) = false →
  Core.add v st =
    (Return tt,
     (st.1,
      set_unsaved (λ r, {[filename st.1]} ∪ r)
        (set_heap (λ h, <[data st.1 := dict_set n v (entries st)]> h) st.2))).
Proof.
  intros H1 H2. destruct st as [s w].
  unfold Core.add, add, try_except, bind, get_variable_name, scope_dict,
    data_dict, gets.
  simpl in *. rewrite H1. simpl. rewrite H2. reflexivity.
Qed.

Lemma add_returns_normally v st : (Core.add v st).1 = Return tt.
Proof.
  destruct (first_bound v (bindings st)) as [n|] eqn:E1.
  - destruct (dict_mem n (entries st)) eqn:E2.
    + by rewrite (add_duplicate _ _ _ E1 E2).
    + by rewrite (add_inserts _ _ _ E1 E2).
  - by rewrite add_unresolved.
Qed.
End AddFacts.


Section AddMore.
Implicit Types (st : VariableDb * world (gset string)) (v : pyobj).

Lemma add_instance v st : (Core.add v st).2.1 = st.1.
Proof.
  destruct (first_bound v (bindings st)) as [n|] eqn:E1.
  - destruct (dict_mem n (entries st)) eqn:E2.
    + by rewrite (add_duplicate _ _ _ E1 E2).
    + by rewrite (add_inserts _ _ _ E1 E2).
  - by rewrite add_unresolved.
Qed.

Lemma add_heap_length v st :
  length (heap (Core.add v st).2.2) = length (heap st.2).
Proof.
  destruct (first_bound v (bindings st)) as [n|] eqn:E1.
  - destruct (dict_mem n (entries st)) eqn:E2.
    + by rewrite (add_duplicate _ _ _ E1 E2).
    + rewrite (add_inserts _ _ _ E1 E2). simpl. by rewrite length_insert.
  - by rewrite add_unresolved.
Qed.

Lemma add_valid v st : valid st → valid (Core.add v st).2.
Proof.
  unfold valid. by rewrite add_instance, add_heap_length.
Qed.

Lemma add_bindings v st : valid st → bindings (Core.add v st).2 = bindings st.
Proof.
  intros (Hd & Hs & Hne).
  destruct (first_bound v (bindings st)) as [n|] eqn:E1.
  - destruct (dict_mem n (entries st)) eqn:E2.
    + by rewrite (add_duplicate _ _ _ E1 E2).
    + rewrite (add_inserts _ _ _ E1 E2). unfold bindings, deref. simpl.
      by rewrite list_lookup_insert_ne.
  - by rewrite add_unresolved.
Qed.

(** What [add] leaves in [entries] when it inserts. *)
Lemma add_inserts_entries v st n :
  valid st →
  first_bound v (bindings st) = Some n →
  dict_mem n (entries st) = false →
  entries (Core.add v st).2 = dict_set n v (entries st).
Proof.
  intros (Hd & _) E1 E2. rewrite (add_inserts _ _ _ E1 E2).
  unfold entries, deref. simpl. by rewrite list_lookup_insert_eq.
Qed.

(** [add] never removes or overwrites an entry. *)
Lemma add_keeps_entries v st k x :
  valid st →
  dict_get k (entries st) = Some x →
  dict_get k (entries (Core.add v st).2) = Some x.
Proof.
  intros Hv Hk.
  destruct (first_bound v (bindings st)) as [n|] eqn:E1.
  - destruct (dict_mem n (entries st)) eqn:E2.
    + by rewrite (add_duplicate _ _ _ E1 E2).
    + rewrite (add_inserts_entries _ _ _ Hv E1 E2).
      rewrite dict_get_set_ne; [done|].
      intros ->. apply dict_mem_false in E2. congruence.
  - by rewrite add_unresolved.
Qed.

(** In the two failure cases nothing but the log changes. *)
Lemma add_failure_state v st :
  first_bound v (bindings st) = None
  ∨ (∃ n, first_bound v (bindings st) = Some n ∧ dict_mem n (entries st) = true) →
  entries (Core.add v st).2 = entries st
  ∧ unsaved_files (Core.add v st).2.2 = unsaved_files st.2
  ∧ heap (Core.add v st).2.2 = heap st.2.
Proof.
  intros [E|(n & E1 & E2)].
  - by rewrite add_unresolved.
  - by rewrite (add_duplicate _ _ _ E1 E2).
Qed.

Lemma for_each_add vs st :
  for_each vs Core.add st = (Return tt, add_each vs st).
Proof.
  revert st. induction vs as [|v vs IH]; intros st; simpl; [done|].
  unfold bind. pose proof (add_returns_normally v st) as Hr.
  destruct (Core.add v st) as [r st'] eqn:E. simpl in Hr. subst r.
  by rewrite IH.
Qed.

Lemma add_each_valid vs st : valid st → valid (add_each vs st).
Proof.
  revert st. induction vs as [|v vs IH]; intros st Hv; simpl; [done|].
  by apply IH, add_valid.
Qed.

Lemma add_each_keeps_entries vs st k x :
  valid st →
  dict_get k (entries st) = Some x →
  dict_get k (entries (add_each vs st)) = Some x.
Proof.
  revert st. induction vs as [|v vs IH]; intros st Hv Hk; simpl; [done|].
  apply IH; [by apply add_valid|by apply add_keeps_entries].
Qed.

Lemma add_each_app vs1 vs2 st :
  add_each (vs1 ++ vs2) st = add_each vs2 (add_each vs1 st).
Proof. apply foldl_app. Qed.

Lemma add_to_unsaved_entries st : entries (Core.add_to_unsaved st).2 = entries st.
Proof. by destruct st. Qed.

Lemma add_multiple_eval vs st :
  Core.add_multiple vs st =
    (Return tt, (Core.add_to_unsaved (add_each vs st)).2).
Proof.
  unfold Core.add_multiple, add_multiple, try_except, bind.
  fold Core.add. rewrite for_each_add. by destruct (add_each vs st).
Qed.

(** C8.  [add_multiple] applies [add] to each value in order: it ends
    normally in the state that the calls of [add], one per value and
    none left out, lead to (followed by [add_to_unsaved]).  A value
    whose own [add] goes through, that is, whose name is resolved and
    is not yet a key when its turn comes, is in [entries] at the end,
    whatever happened to the values before and after it. *)
Theorem add_multiple_attempts_every_value vs st :
  valid st →
  Core.add_multiple vs st =
    (Return tt, (Core.add_to_unsaved (add_each vs st)).2)
  ∧ ∀ i v n,
      vs !! i = Some v →
      first_bound v (bindings (add_each (take i vs) st)) = Some n →
      dict_mem n (entries (add_each (take i vs) st)) = false →
      dict_get n (entries (Core.add_multiple vs st).2) = Some v.
Proof.
  intros Hv. split; [apply add_multiple_eval|].
  intros i v n Hi E1 E2.
  replace (Core.add_multiple vs st).2
    with (Core.add_to_unsaved (add_each vs st)).2
    by (by rewrite add_multiple_eval).
  rewrite add_to_unsaved_entries.
  rewrite <- (take_drop_middle vs i v Hi), add_each_app. simpl.
  set (before := add_each (take i vs) st) in *.
  assert (valid before) as Hb by by apply add_each_valid.
  apply add_each_keeps_entries; [by apply add_valid|].
  rewrite (add_inserts_entries _ _ _ Hb E1 E2). apply dict_get_set_eq.
Qed.
End AddMore.


(** ** [save] and [load] *)
Section SaveLoad.
Variable P : pickler.
Implicit Types (st : VariableDb * world (gset string)).

Lemma save_denied st e :
  denied st.2 !! filename st.1 = Some e →
  Core.save P st =
    if handles [OSError; PicklingError] e
    then (Return tt, (st.1, set_log (λ l, l ++ [save_failed (filename st.1) e]) st.2))
    else (Raise e, st).
Proof.
  intros H. destruct st as [s w].
  unfold Core.save, try_except, bind, liftW, open_wb, self, gets.
  simpl in *. rewrite H. by destruct (handles _ e).
Qed.

Lemma save_dump_failed st e partial :
  denied st.2 !! filename st.1 = None →
  pickle_dump P (entries st) = DumpFailed e partial →
  Core.save P st =
    let w' := set_files (λ fs, <[filename st.1 := partial]> fs)
                (set_files (λ fs, <[filename st.1 := []]> fs) st.2) in
    if handles [OSError; PicklingError] e
    then (Return tt, (st.1, set_log (λ l, l ++ [save_failed (filename st.1) e]) w'))
    else (Raise e, (st.1, w')).
Proof.
  intros H1 H2. destruct st as [s w].
  unfold Core.save, try_except, bind, liftW, open_wb, self, data_dict, gets.
  simpl in *. rewrite H1. simpl.
  change (entries (s, set_files _ w)) with (entries (s, w)). rewrite H2. simpl.
  by destruct (handles _ e).
Qed.

Lemma save_dumped st b :
  denied st.2 !! filename st.1 = None →
  pickle_dump P (entries st) = Dumped b →
  Core.save P st =
    (Return tt,
     (st.1,
      set_unsaved (λ r, r ∖ {[filename st.1]})
        (set_files (λ fs, <[filename st.1 := b]> fs)
           (set_files (λ fs, <[filename st.1 := []]> fs) st.2)))).
Proof.
  intros H1 H2. destruct st as [s w].
  unfold Core.save, try_except, bind, liftW, open_wb, self, data_dict, gets.
  simpl in *. rewrite H1. simpl.
  change (entries (s, set_files _ w)) with (entries (s, w)). by rewrite H2.
Qed.

Lemma load_dict st b d :
  files st.2 !! filename st.1 = Some b →
  denied st.2 !! filename st.1 = None →
  pickle_load P b = Loaded (VDict d) →
  Core.load P st =
    (Return tt,
     (Instance (filename st.1) (length (heap st.2)) (scope st.1),
      set_unsaved (λ r, {[filename st.1]} ∪ r)
        (set_heap (λ h, h ++ [d]) st.2))).
Proof.
  intros H1 H2 H3. destruct st as [s w].
  unfold Core.load, load, try_except, bind, liftW, open_rb, self, gets.
  simpl in *. rewrite H1, H2. simpl. by rewrite H3.
Qed.

Lemma load_dict_entries st b d :
  files st.2 !! filename st.1 = Some b →
  denied st.2 !! filename st.1 = None →
  pickle_load P b = Loaded (VDict d) →
  entries (Core.load P st).2 = d.
Proof.
  intros H1 H2 H3. rewrite (load_dict _ _ _ H1 H2 H3).
  apply deref_alloc_new.
Qed.

Lemma init_returns path sc w :
  (∀ o, sc ≠ Some (ScopeOther o)) →
  ∃ l, Core.__init__ path sc w =
         (Return (Instance (check_file_name path) (length (heap w)) l),
          set_unsaved (λ r, {[check_file_name path]} ∪ r)
            (set_heap (λ h, h ++ [[]]) w))
       ∧ l = match sc with Some (ScopeDict l) => l | _ => globals_loc end.
Proof.
  intros H. destruct sc as [[l|o]|]; [by exists l|by destruct (H o)|by exists globals_loc].
Qed.

(** C3.  Round trip.  When the entries of a store are serializable and
    its file can be opened, [save()] followed by [load()] on a new
    store for the same path (any [path] that [check_file_name] maps to
    the path of the store) gives entries equal by value to the original
    ones.  The new store is constructed, starts empty, and ends with
    the saved entries; and a store on that path that already holds
    other entries ends with the saved ones as well: they are replaced,
    not merged. *)
Theorem save_then_load_round_trip st path :
  serializable P (entries st) →
  denied st.2 !! filename st.1 = None →
  check_file_name path = filename st.1 →
  (∀ sc, (∀ o, sc ≠ Some (ScopeOther o)) →
     ∃ fresh w, Core.__init__ path sc (Core.save P st).2.2 = (Return fresh, w)
       ∧ filename fresh = filename st.1
       ∧ entries (fresh, w) = []
       ∧ dict_eqv (entries (Core.load P (fresh, w)).2) (entries st))
  ∧ (∀ other, filename other = filename st.1 →
       dict_eqv (entries (Core.load P (other, (Core.save P st).2.2)).2)
         (entries st)).
Proof.
  intros (b & d' & Hdump & Hload & Heqv) Hden Hpath.
  rewrite (save_dumped _ _ Hden Hdump). simpl. split.
  - intros sc Hsc. destruct (init_returns path sc
      (set_unsaved (λ r, r ∖ {[filename st.1]})
        (set_files (λ fs, <[filename st.1 := b]> fs)
           (set_files (λ fs, <[filename st.1 := []]> fs) st.2))) Hsc)
      as (l & -> & _).
    eexists _, _. split; [done|]. split; [done|]. split.
    { apply deref_alloc_new. }
    erewrite load_dict_entries; [done| | |done]; simpl.
    + rewrite Hpath. apply lookup_insert_eq.
    + by rewrite Hpath.
  - intros other Hother.
    erewrite load_dict_entries; [done| | |done]; simpl.
    + rewrite Hother. apply lookup_insert_eq.
    + by rewrite Hother.
Qed.

(** What [save] does to the dirty registry, by how the attempt goes. *)
Lemma save_registry st :
  match save_attempt P st with
  | Saved _ =>
      (Core.save P st).1 = Return tt
      ∧ unsaved_files (Core.save P st).2.2
        = unsaved_files st.2 ∖ {[filename st.1]}
  | SaveFailed e =>
      unsaved_files (Core.save P st).2.2 = unsaved_files st.2
  end.
Proof.
  unfold save_attempt.
  destruct (denied st.2 !! filename st.1) as [e|] eqn:Hden.
  - rewrite (save_denied _ _ Hden). by destruct (handles _ e).
  - destruct (pickle_dump P (entries st)) as [b|e partial] eqn:Hdump.
    + by rewrite (save_dumped _ _ Hden Hdump).
    + rewrite (save_dump_failed _ _ _ Hden Hdump). simpl.
      by destruct (handles _ e).
Qed.
End SaveLoad.


(** ** Relations that every operation preserves *)
Section Preserves.
Context {S : Type} (I : S → S → Prop) `{!PreOrder I}.

Lemma preserves_ret {A} (a : A) : preserves I (ret a).
Proof. intros s. reflexivity. Qed.

Lemma preserves_raise {A} e : preserves I (raise (A := A) e).
Proof. intros s. reflexivity. Qed.

Lemma preserves_gets {A} (f : S → A) : preserves I (gets f).
Proof. intros s. reflexivity. Qed.

Lemma preserves_bind {A B} (m : M S A) (k : A → M S B) :
  preserves I m → (∀ a, preserves I (k a)) → preserves I (bind m k).
Proof.
  intros Hm Hk s. unfold bind. specialize (Hm s).
  destruct (m s) as [[a|e] s']; simpl in *; [|done].
  etrans; [done|apply Hk].
Qed.

Lemma preserves_try_except {A} (body : M S A) classes handler :
  preserves I body → (∀ e, preserves I (handler e)) →
  preserves I (try_except body classes handler).
Proof.
  intros Hb Hh s. unfold try_except. specialize (Hb s).
  destruct (body s) as [[a|e] s']; simpl in *; [done|].
  destruct (handles classes e); [|done].
  etrans; [done|apply Hh].
Qed.

Lemma preserves_for_each {A} (xs : list A) (f : A → M S unit) :
  (∀ x, preserves I (f x)) → preserves I (for_each xs f).
Proof.
  intros Hf. induction xs as [|x xs IH]; simpl.
  - apply preserves_ret.
  - apply preserves_bind; [apply Hf|done].
Qed.
End Preserves.

Section PreservesMeth.
Context {R : Type} (I : VariableDb * world R → VariableDb * world R → Prop)
  `{!PreOrder I}.

Lemma preserves_with {A B} (enter : meth R B) (exit : meth R unit)
    (body : B → meth R A) :
  preserves I enter → preserves I exit → (∀ v, preserves I (body v)) →
  preserves I (with_ enter exit body).
Proof.
  intros He Hx Hb. unfold with_. apply preserves_bind; [done..|].
  intros v st. specialize (Hb v st).
  destruct (body v st) as [[a|e] st']; simpl in *.
  - etrans; [done|]. apply (preserves_bind I); [done..|].
    intros _. by apply preserves_ret.
  - specialize (Hx st'). destruct (exit st') as [[?|?] st'']; simpl in *;
      by etrans.
Qed.
End PreservesMeth.

Global Instance scope_kept_preorder {R} : PreOrder (@scope_kept R).
Proof.
  split.
  - by intros st Hv.
  - intros st1 st2 st3 H12 H23 Hv.
    destruct (H12 Hv) as (Hv2 & E1 & E2).
    destruct (H23 Hv2) as (Hv3 & E3 & E4).
    split; [done|]. split; congruence.
Qed.

Global Instance registry_grows_preorder : PreOrder registry_grows.
Proof.
  split.
  - intros st. unfold registry_grows. set_solver.
  - intros st1 st2 st3. unfold registry_grows. set_solver.
Qed.

(** Unfolds a method down to the primitives and splits on every test. *)
Ltac run_method :=
  unfold Core.add, Core.delete, Core.replace, Core.clear, Core.load,
    Core.add_by_name, Core.save, Core.get_variable_name, Core.add_to_unsaved,
    add, delete, replace, clear, load, get_variable_name,
    try_except, bind, ret, raise, liftW, mutate, alloc, logging, modify,
    open_rb, open_wb, write, set_data, self, data_dict, scope_dict, gets;
  simpl;
  repeat (case_match; simpl; simplify_eq/=).

Section ScopeKept.
Variable P : pickler.

(** The dict behind [self.scope] after a write through [self.data]. *)
Lemma scope_kept_write (s : VariableDb) (w w' : world (gset string)) d :
  heap w' = <[data s := d]> (heap w) →
  scope_kept (s, w) (s, w').
Proof.
  intros Hh (Hd & Hs & Hne). simpl in *. unfold valid, bindings, deref. simpl.
  rewrite Hh, length_insert, list_lookup_insert_ne by done. done.
Qed.

Lemma scope_kept_same_heap (s : VariableDb) (w w' : world (gset string)) :
  heap w' = heap w → scope_kept (s, w) (s, w').
Proof.
  intros Hh Hv. unfold valid, bindings, deref in *. simpl in *. by rewrite Hh.
Qed.

Lemma scope_kept_rebind (s : VariableDb) (w w' : world (gset string)) d :
  heap w' = heap w ++ [d] →
  scope_kept (s, w) (Instance (filename s) (length (heap w)) (scope s), w').
Proof.
  intros Hh (Hd & Hs & Hne). simpl in *. unfold valid, bindings, deref. simpl.
  rewrite Hh, length_app, lookup_app_l by done. simpl.
  repeat split; try done; lia.
Qed.

Ltac scope_kept_done :=
  first [ by apply scope_kept_same_heap
        | by eapply scope_kept_write
        | by eapply scope_kept_rebind ].

Lemma add_to_unsaved_scope_kept : preserves scope_kept Core.add_to_unsaved.
Proof. intros [s w]. by apply scope_kept_same_heap. Qed.

Lemma add_scope_kept v : preserves scope_kept (Core.add v).
Proof. intros [s w]. run_method; scope_kept_done. Qed.

Lemma delete_scope_kept v : preserves scope_kept (Core.delete v).
Proof. intros [s w]. run_method; scope_kept_done. Qed.

Lemma replace_scope_kept v : preserves scope_kept (Core.replace v).
Proof. intros [s w]. run_method; scope_kept_done. Qed.

Lemma clear_scope_kept : preserves scope_kept Core.clear.
Proof. intros [s w]. run_method; scope_kept_done. Qed.

Lemma add_by_name_scope_kept n : preserves scope_kept (Core.add_by_name n).
Proof. intros [s w]. run_method; scope_kept_done. Qed.

Lemma load_scope_kept : preserves scope_kept (Core.load P).
Proof. intros [s w]. run_method; scope_kept_done. Qed.

Lemma save_scope_kept : preserves scope_kept (Core.save P).
Proof. intros [s w]. run_method; scope_kept_done. Qed.

Lemma log_scope_kept lv t c :
  preserves scope_kept (liftW (R := gset string) (logging lv t c)).
Proof. intros [s w]. by apply scope_kept_same_heap. Qed.

Lemma add_multiple_scope_kept vs : preserves scope_kept (Core.add_multiple vs).
Proof.
  apply (preserves_try_except _).
  - apply (preserves_bind _).
    + apply (preserves_for_each _). apply add_scope_kept.
    + intros _. apply add_to_unsaved_scope_kept.
  - intros e. apply log_scope_kept.
Qed.

Lemma enter_scope_kept : preserves scope_kept (Core.__enter__ P).
Proof.
  apply (preserves_try_except _).
  - apply (preserves_bind _); [apply (preserves_gets _)|]. intros s.
    apply (preserves_bind _); [by intros [? ?]|]. intros present.
    destruct present; simpl; [apply load_scope_kept|apply add_to_unsaved_scope_kept].
  - intros e. apply (preserves_bind _); [apply log_scope_kept|].
    intros _. apply (preserves_raise _).
Qed.

Lemma exit_scope_kept : preserves scope_kept (Core.__exit__ P).
Proof.
  apply (preserves_try_except _); [apply save_scope_kept|].
  intros e. apply log_scope_kept.
Qed.

Lemma run_op_scope_kept o : preserves scope_kept (run_op P o).
Proof.
  destruct o; simpl.
  - by intros [? ?].
  - apply add_scope_kept.
  - apply add_by_name_scope_kept.
  - apply add_multiple_scope_kept.
  - apply delete_scope_kept.
  - apply replace_scope_kept.
  - apply save_scope_kept.
  - apply load_scope_kept.
  - apply clear_scope_kept.
  - apply enter_scope_kept.
  - apply exit_scope_kept.
Qed.

Lemma run_ops_scope_kept ops st : scope_kept st (run_ops P ops st).
Proof.
  revert st. induction ops as [|o ops IH]; intros st; simpl; [done|].
  etrans; [apply run_op_scope_kept|apply IH].
Qed.

Lemma init_valid path l w :
  l < length (heap w) →
  ∃ s w0, Core.__init__ path (Some (ScopeDict l)) w = (Return s, w0)
    ∧ scope s = l ∧ valid (s, w0) ∧ deref w0 l = deref w l.
Proof.
  intros Hl. eexists _, _. split; [done|]. simpl. split; [done|].
  unfold valid, deref. simpl. rewrite length_app, lookup_app_l by done.
  simpl. repeat split; try done; lia.
Qed.

(** C9.  Whatever operations are run on a store, in any number and
    order and whether they return or raise ([add], [add_by_name],
    [add_multiple], [delete], [replace], [save], [load], [clear], name
    resolution, entering and leaving a [with] block), [self.scope] is
    the same dict object as before and its items are unchanged. *)
Theorem scope_is_only_read ops st :
  valid st →
  scope (run_ops P ops st).1 = scope st.1
  ∧ bindings (run_ops P ops st) = bindings st
  ∧ valid (run_ops P ops st).
Proof.
  intros Hv. destruct (run_ops_scope_kept ops st Hv) as (? & ? & ?). done.
Qed.
End ScopeKept.


(** ** The dirty registry *)
Section Registry.
Variable P : pickler.
Implicit Types (st : VariableDb * world (gset string)).

Ltac registry_done := unfold registry_grows; simpl; set_solver.

Lemma add_to_unsaved_registry : preserves registry_grows Core.add_to_unsaved.
Proof. intros [s w]. registry_done. Qed.

Lemma add_registry v : preserves registry_grows (Core.add v).
Proof. intros [s w]. run_method; registry_done. Qed.

Lemma delete_registry v : preserves registry_grows (Core.delete v).
Proof. intros [s w]. run_method; registry_done. Qed.

Lemma replace_registry v : preserves registry_grows (Core.replace v).
Proof. intros [s w]. run_method; registry_done. Qed.

Lemma clear_registry : preserves registry_grows Core.clear.
Proof. intros [s w]. run_method; registry_done. Qed.

Lemma add_by_name_registry n : preserves registry_grows (Core.add_by_name n).
Proof. intros [s w]. run_method; registry_done. Qed.

Lemma load_registry : preserves registry_grows (Core.load P).
Proof. intros [s w]. run_method; registry_done. Qed.

Lemma log_registry lv t c :
  preserves registry_grows (liftW (R := gset string) (logging lv t c)).
Proof. intros [s w]. registry_done. Qed.

Lemma add_multiple_registry vs : preserves registry_grows (Core.add_multiple vs).
Proof.
  apply (preserves_try_except _).
  - apply (preserves_bind _).
    + apply (preserves_for_each _). apply add_registry.
    + intros _. apply add_to_unsaved_registry.
  - intros e. apply log_registry.
Qed.

Lemma enter_registry : preserves registry_grows (Core.__enter__ P).
Proof.
  apply (preserves_try_except _).
  - apply (preserves_bind _); [apply (preserves_gets _)|]. intros s.
    apply (preserves_bind _); [by intros [? ?]|]. intros present.
    destruct present; simpl; [apply load_registry|apply add_to_unsaved_registry].
  - intros e. apply (preserves_bind _); [apply log_registry|].
    intros _. apply (preserves_raise _).
Qed.

(** [__exit__] is [save] followed, at most, by a log record. *)
Lemma exit_registry_eq st :
  unsaved_files (Core.__exit__ P st).2.2 = unsaved_files (Core.save P st).2.2.
Proof.
  unfold Core.__exit__, try_except.
  destruct (Core.save P st) as [[?|e] st']; simpl; [done|].
  by destruct (handles _ e).
Qed.

(** A path leaves the registry only through a save of that path that
    goes through. *)
Lemma run_op_registry o st p :
  p ∈ unsaved_files st.2 →
  p ∈ unsaved_files (run_op P o st).2.2
  ∨ ((o = OpSave ∨ o = OpExit) ∧ filename st.1 = p
     ∧ ∃ b, save_attempt P st = Saved b).
Proof.
  intros Hp.
  assert (∀ m : meth (gset string) unit, preserves registry_grows m →
            p ∈ unsaved_files (m st).2.2) as Hgrow.
  { intros m Hm. by apply (Hm st). }
  assert (p ∈ unsaved_files (Core.save P st).2.2
          ∨ (filename st.1 = p ∧ ∃ b, save_attempt P st = Saved b)) as Hsave.
  { pose proof (save_registry P st) as Hreg.
    destruct (save_attempt P st) as [b|e].
    - destruct Hreg as [_ ->].
      destruct (decide (filename st.1 = p)) as [<-|Hne]; [right; eauto|left].
      set_solver.
    - left. by rewrite Hreg. }
  destruct o as [v|v|n|vs|v|v| | | | |]; cbn [run_op].
  - left. by destruct st.
  - left. apply (Hgrow (Core.add v)), add_registry.
  - left. apply (Hgrow (Core.add_by_name n)), add_by_name_registry.
  - left. apply (Hgrow (Core.add_multiple vs)), add_multiple_registry.
  - left. apply (Hgrow (Core.delete v)), delete_registry.
  - left. apply (Hgrow (Core.replace v)), replace_registry.
  - destruct Hsave as [?|[? ?]]; [by left|right; eauto].
  - left. apply (Hgrow (Core.load P)), load_registry.
  - left. apply (Hgrow Core.clear), clear_registry.
  - left. apply (Hgrow (Core.__enter__ P)), enter_registry.
  - rewrite exit_registry_eq. destruct Hsave as [?|[? ?]]; [by left|right; eauto].
Qed.

(** C10.  A successful construction puts the path of the store, which
    is the given one normalised to end in [.db], into the dirty
    registry, although the entries of the new store are empty.  From
    then on the path stays in the registry through every operation of
    every store, except a [save] (or the [save] of [__exit__]) of a
    store on that path that goes through; and such a save takes it
    out. *)
Theorem construction_registers_path path sc w s w0 :
  Core.__init__ path sc w = (Return s, w0) →
  filename s = check_file_name path
  ∧ endswith (filename s) ".db" = true
  ∧ entries (s, w0) = []
  ∧ filename s ∈ unsaved_files w0
  ∧ (∀ o st,
       filename s ∈ unsaved_files st.2 →
       filename s ∈ unsaved_files (run_op P o st).2.2
       ∨ ((o = OpSave ∨ o = OpExit) ∧ filename st.1 = filename s
          ∧ ∃ b, save_attempt P st = Saved b))
  ∧ (∀ st b,
       filename st.1 = filename s → save_attempt P st = Saved b →
       filename s ∉ unsaved_files (Core.save P st).2.2).
Proof.
  intros Hinit.
  assert (filename s = check_file_name path ∧ entries (s, w0) = []
          ∧ filename s ∈ unsaved_files w0) as (H1 & H2 & H3).
  { unfold Core.__init__, bind, alloc, ret, raise, modify in Hinit.
    destruct sc as [[l|o]|]; simplify_eq/=;
      (split; [done|]; split; [apply deref_alloc_new|set_solver]). }
  repeat split; try done.
  - rewrite H1. apply check_file_name_endswith.
  - intros o st. apply run_op_registry.
  - intros st b Hfn Hs. pose proof (save_registry P st) as Hreg.
    rewrite Hs in Hreg. destruct Hreg as [_ ->].
    intros [_ Hout]%elem_of_difference. apply Hout.
    rewrite Hfn. by apply elem_of_singleton.
Qed.
End Registry.


(** ** Identity-based operations on concrete stores *)
Section Identity.
Import Sample Scenario.
Implicit Types (st : VariableDb * world (gset string)) (v : pyobj).

Lemma constructed_valid path sc : valid (constructed path sc).
Proof. unfold valid. simpl. lia. Qed.

Lemma constructed_is_init path sc :
  Core.__init__ path (Some (ScopeDict 1)) (start ∅ sc)
  = (Return (constructed path sc).1, (constructed path sc).2).
Proof. reflexivity. Qed.

(** C1.  What [add] does where it is said to fail.  On a store with
    the scope [{}], [add(123)] finds no name, logs the [ValueError] and
    returns normally: no exception reaches the caller.  On a store that
    already holds [x_val = 100], a second [add(100)] logs the
    [KeyError] and returns normally as well.  In both cases only the
    log changes. *)
Theorem add_logs_and_returns :
  let st := constructed "test.db" [] in
  let st1 := constructed "test.db" x_val_scope in
  let st2 := (Core.add hundred st1).2 in
  first_bound stray (bindings st) = None
  ∧ Core.add stray st
    = (Return tt,
       (st.1, set_log (λ _, [add_failed
          (Exn ValueError "Could not determine variable name")]) st.2))
  ∧ entries st2 = [("x_val", hundred)]
  ∧ first_bound hundred (bindings st2) = Some "x_val"
  ∧ Core.add hundred st2
    = (Return tt,
       (st2.1, set_log (λ _, [add_failed
          (Exn KeyError "Variable 'x_val' already exists")]) st2.2)).
Proof. vm_compute. repeat split. Qed.

Lemma add_then_lookup_counterexample :
  ¬ add_then_lookup_as_stated (constructed "t" two_names) seven "b".
Proof.
  intros H. assert (None = Some seven) as Habs; [|discriminate Habs].
  apply H; [by exists seven|done].
Qed.

(** C2, amended.  When [n] is the first name of the scope, in its
    iteration order, that is bound to the very object [v], and [n] is
    not yet a key of [entries], then after [add(v)] looking up [n] in
    [entries] gives [v]. *)
Theorem add_then_lookup_first_name st v n :
  valid st →
  first_bound v (bindings st) = Some n →
  dict_mem n (entries st) = false →
  dict_get n (entries (Core.add v st).2) = Some v.
Proof.
  intros Hv E1 E2. rewrite (add_inserts_entries _ _ _ Hv E1 E2).
  apply dict_get_set_eq.
Qed.

Lemma add_then_lookup_first_name_witness :
  valid (constructed "t" two_names)
  ∧ first_bound seven (bindings (constructed "t" two_names)) = Some "a"
  ∧ dict_mem "a" (entries (constructed "t" two_names)) = false
  ∧ dict_get "a" (entries (Core.add seven (constructed "t" two_names)).2)
    = Some seven.
Proof.
  split; [apply constructed_valid|]. split; [reflexivity|].
  split; [reflexivity|].
  apply (add_then_lookup_first_name (constructed "t" two_names) seven "a");
    [apply constructed_valid|reflexivity|reflexivity].
Defined.

(** When a single name binds the object, that name is the one found. *)
Lemma first_bound_only_name v (d : pydict) n val :
  dict_get n d = Some val → is_ val v = true →
  (∀ m x, (m, x) ∈ d → is_ x v = true → m = n) →
  first_bound v d = Some n.
Proof.
  induction d as [|[k x] d IH]; simpl; [done|].
  intros Hget His Huniq. destruct (is_ x v) eqn:E.
  - f_equal. apply (Huniq k x); [left|done].
  - destruct (String.eqb_spec n k) as [->|Hne].
    + simplify_eq. congruence.
    + apply IH; [done..|]. intros m y Hin. apply Huniq. by right.
Qed.

Lemma add_multiple_witness :
  valid (constructed "t" a_b_scope)
  ∧ (Core.add_multiple [stray; one; one; two] (constructed "t" a_b_scope)
     = (Return tt,
        (Core.add_to_unsaved
           (add_each [stray; one; one; two] (constructed "t" a_b_scope))).2)
     ∧ ∀ i v n,
         [stray; one; one; two] !! i = Some v →
         first_bound v (bindings (add_each (take i [stray; one; one; two])
                                    (constructed "t" a_b_scope))) = Some n →
         dict_mem n (entries (add_each (take i [stray; one; one; two])
                                (constructed "t" a_b_scope))) = false →
         dict_get n (entries (Core.add_multiple [stray; one; one; two]
                                (constructed "t" a_b_scope)).2) = Some v).
Proof.
  split; [apply constructed_valid|].
  apply (add_multiple_attempts_every_value [stray; one; one; two]
           (constructed "t" a_b_scope)).
  apply constructed_valid.
Defined.

(** [add_multiple(123, a, a, b)] on the scope [a = 1; b = 2]: the stray
    value and the repeated one are logged, [a] and [b] are stored. *)
Example add_multiple_sample :
  let st' := (Core.add_multiple [stray; one; one; two]
                (constructed "t" a_b_scope)).2 in
  entries st' = [("a", one); ("b", two)]
  ∧ cause <$> log st'.2
    = [Some (Exn ValueError "Could not determine variable name");
       Some (Exn KeyError "Variable 'a' already exists")].
Proof. vm_compute. done. Qed.
End Identity.

(** ** [get] and [store[name]] *)
Section LookupFacts.
Context {R : Type}.
Implicit Types (st : VariableDb * world R).

(** C7.  [get(name, default)] returns [entries[name]] when [name] is a
    key and [default], without raising, when it is not; [store[name]]
    returns the same value for a key that is present and raises a
    [KeyError] for one that is absent.  Neither changes the state. *)
Theorem get_and_getitem st name default :
  (∀ v, dict_get name (entries st) = Some v →
        get name default st = (Return v, st)
        ∧ __getitem__ name st = (Return v, st))
  ∧ (dict_get name (entries st) = None →
        get name default st = (Return default, st)
        ∧ ∃ e, __getitem__ name st = (Raise e, st) ∧ cls e = KeyError).
Proof.
  unfold get, __getitem__, bind, data_dict, gets, ret, raise. split.
  - intros v ->. done.
  - intros ->. split; [done|]. by eexists.
Qed.
End LookupFacts.

Lemma get_and_getitem_witness :
  let st := (Core.add Scenario.hundred
               (Scenario.constructed "t" Scenario.x_val_scope)).2 in
  (dict_get "x_val" (entries st) = Some Scenario.hundred
   ∧ get "x_val" Scenario.stray st = (Return Scenario.hundred, st)
   ∧ __getitem__ "x_val" st = (Return Scenario.hundred, st))
  ∧ (dict_get "missing" (entries st) = None
     ∧ get "missing" Scenario.stray st = (Return Scenario.stray, st)
     ∧ ∃ e, __getitem__ "missing" st = (Raise e, st) ∧ cls e = KeyError).
Proof.
  intros st.
  pose proof (get_and_getitem st "x_val" Scenario.stray) as [Hpresent _].
  pose proof (get_and_getitem st "missing" Scenario.stray) as [_ Habsent].
  split.
  - split; [reflexivity|]. apply Hpresent. reflexivity.
  - split; [reflexivity|]. apply Habsent. reflexivity.
Defined.


(** ** [delete] *)
Section Delete.
Context {R : Type}.
Variable add_to_unsaved : meth R unit.
Implicit Types (st : VariableDb * world R) (v : pyobj).

(** The failures of [delete] happen before [add_to_unsaved] is reached,
    so they are the same in both files. *)
Lemma delete_unresolved v st :
  first_bound v (bindings st) = None →
  delete add_to_unsaved v st =
    (Return tt,
     (st.1, set_log (λ l, l ++ [delete_failed
        (Exn ValueError "Could not determine variable name")]) st.2)).
Proof.
  intros H. destruct st as [s w].
  unfold delete, try_except, bind, get_variable_name, scope_dict, gets.
  simpl in *. rewrite H. reflexivity.
Qed.

Lemma delete_absent v st n :
  first_bound v (bindings st) = Some n →
  dict_mem n (entries st) = false →
  delete add_to_unsaved v st =
    (Return tt,
     (st.1, set_log (λ l, l ++ [delete_failed
        (Exn KeyError ("Variable '" +:+ n +:+ "' not found in dictionary"))])
        st.2)).
Proof.
  intros H1 H2. destruct st as [s w].
  unfold delete, try_except, bind, get_variable_name, scope_dict,
    data_dict, gets.
  simpl in *. rewrite H1. simpl. rewrite H2. reflexivity.
Qed.
End Delete.

Section DeleteCore.
Import Sample Scenario.
Implicit Types (st : VariableDb * world (gset string)) (v : pyobj).

Lemma delete_removes v st n :
  first_bound v (bindings st) = Some n →
  dict_mem n (entries st) = true →
  Core.delete v st =
    (Return tt,
     (st.1,
      set_unsaved (λ r, {[filename st.1]} ∪ r)
        (set_heap (λ h, <[data st.1 := dict_del n (entries st)]> h) st.2))).
Proof.
  intros H1 H2. destruct st as [s w].
  unfold Core.delete, delete, try_except, bind, get_variable_name, scope_dict,
    data_dict, gets.
  simpl in *. rewrite H1. simpl. rewrite H2. reflexivity.
Qed.

Lemma delete_non_string_counterexample :
  ¬ delete_rejects_non_string (constructed "test.db" []) stray.
Proof.
  intros H. destruct H as (e & Hraise & _); [reflexivity|].
  discriminate Hraise.
Qed.

(** C4, amended.  [delete] takes a value of any type and looks for the
    name that binds this very object in the scope; it does not check
    that its argument is a string.  A value bound to a stored name has
    its entry removed and the store marked dirty.  A value that is
    bound nowhere is recorded as a [ValueError] (name resolution), and
    one bound to a name that is not stored as a [KeyError]; in both
    cases the entries stay as they are.  No [TypeError] arises. *)
Theorem delete_resolves_by_identity v st :
  valid st →
  match first_bound v (bindings st) with
  | None =>
      log (Core.delete v st).2.2
      = log st.2 ++ [delete_failed
                       (Exn ValueError "Could not determine variable name")]
      ∧ entries (Core.delete v st).2 = entries st
  | Some n =>
      if dict_mem n (entries st) then
        entries (Core.delete v st).2 = dict_del n (entries st)
        ∧ dict_mem n (entries (Core.delete v st).2) = false
        ∧ filename st.1 ∈ unsaved_files (Core.delete v st).2.2
        ∧ log (Core.delete v st).2.2 = log st.2
      else
        log (Core.delete v st).2.2
        = log st.2 ++ [delete_failed
             (Exn KeyError ("Variable '" +:+ n +:+ "' not found in dictionary"))]
        ∧ entries (Core.delete v st).2 = entries st
  end
  ∧ ∀ e, (Core.delete v st).1 = Raise e → cls e ≠ TypeError.
Proof.
  intros (Hd & _). split.
  - destruct (first_bound v (bindings st)) as [n|] eqn:E1.
    + destruct (dict_mem n (entries st)) eqn:E2.
      * rewrite (delete_removes _ _ _ E1 E2).
        assert (entries (st.1,
                  set_unsaved (λ r, {[filename st.1]} ∪ r)
                    (set_heap (λ h, <[data st.1 := dict_del n (entries st)]> h)
                       st.2)) = dict_del n (entries st)) as Hent.
        { unfold entries, deref. simpl. by rewrite list_lookup_insert_eq. }
        simpl. rewrite Hent. repeat split; [|set_solver].
        apply dict_mem_false, dict_get_del_eq.
      * unfold Core.delete. by rewrite (delete_absent _ _ _ _ E1 E2).
    + unfold Core.delete. by rewrite (delete_unresolved _ _ _ E1).
  - intros e.
    destruct (first_bound v (bindings st)) as [n|] eqn:E1.
    + destruct (dict_mem n (entries st)) eqn:E2.
      * by rewrite (delete_removes _ _ _ E1 E2).
      * unfold Core.delete. by rewrite (delete_absent _ _ _ _ E1 E2).
    + unfold Core.delete. by rewrite (delete_unresolved _ _ _ E1).
Qed.

(** [delete(100)] removes [x_val], and [delete(123)] is a resolution
    failure, on a store that holds [x_val = 100]. *)
Lemma delete_resolves_by_identity_witness :
  valid (Core.add hundred (constructed "t" x_val_scope)).2
  ∧ is_str hundred = false
  ∧ entries (Core.delete hundred
               (Core.add hundred (constructed "t" x_val_scope)).2).2
    = dict_del "x_val"
        (entries (Core.add hundred (constructed "t" x_val_scope)).2)
  ∧ entries (Core.delete hundred
               (Core.add hundred (constructed "t" x_val_scope)).2).2 = [].
Proof.
  assert (valid (Core.add hundred (constructed "t" x_val_scope)).2) as Hv.
  { unfold valid. simpl. lia. }
  split; [exact Hv|]. split; [reflexivity|].
  pose proof (delete_resolves_by_identity hundred
                (Core.add hundred (constructed "t" x_val_scope)).2 Hv)
    as [(Hdel & _) _].
  split; [exact Hdel|]. rewrite Hdel. reflexivity.
Defined.

(** In [variabledb.py] the two failures are logged in the same way. *)
Lemma legacy_delete_failures v (st : VariableDb * world (list string)) :
  match first_bound v (bindings st) with
  | None =>
      Legacy.delete v st
      = (Return tt,
         (st.1, set_log (λ l, l ++ [delete_failed
            (Exn ValueError "Could not determine variable name")]) st.2))
  | Some n =>
      dict_mem n (entries st) = false →
      Legacy.delete v st
      = (Return tt,
         (st.1, set_log (λ l, l ++ [delete_failed
            (Exn KeyError ("Variable '" +:+ n +:+ "' not found in dictionary"))])
            st.2))
  end.
Proof.
  destruct (first_bound v (bindings st)) as [n|] eqn:E1.
  - intros E2. by apply delete_absent.
  - by apply delete_unresolved.
Qed.
End DeleteCore.


(** ** The sweep over the dirty registry *)

Global Instance files_kept_preorder {R} : PreOrder (@files_kept R).
Proof.
  split.
  - intros st. unfold files_kept. set_solver.
  - intros st1 st2 st3 (? & ? & ?) (? & ? & ?). unfold files_kept.
    repeat split; [congruence..|set_solver].
Qed.

Global Instance files_kept_world_preorder {R} : PreOrder (@files_kept_world R).
Proof.
  split.
  - intros w. unfold files_kept_world. set_solver.
  - intros w1 w2 w3 (? & ?) (? & ?). unfold files_kept_world.
    split; [congruence|set_solver].
Qed.

(** A [with] statement that ends normally has run its three parts. *)
Lemma with_returns {R A B} (enter : meth R B) (exit : meth R unit)
    (body : B → meth R A) (st st' : VariableDb * world R) (a : A) :
  with_ enter exit body st = (Return a, st') →
  ∃ v st1 st2, enter st = (Return v, st1)
    ∧ body v st1 = (Return a, st2)
    ∧ exit st2 = (Return tt, st').
Proof.
  unfold with_, bind, ret.
  destruct (enter st) as [[v|e] st1] eqn:Henter; [|done].
  destruct (body v st1) as [[a'|e] st2] eqn:Hbody.
  - destruct (exit st2) as [[[]|e] st3] eqn:Hexit; [|done].
    intros [= -> ->]. by exists v, st1, st2.
  - by destruct (exit st2) as [[?|?] ?].
Qed.

Section CoreSweep.
Variable P : pickler.
Implicit Types (st : VariableDb * world (gset string)).

Ltac files_done :=
  unfold files_kept; simpl; repeat split; try done;
  rewrite ?dom_insert_L; set_solver.

Lemma add_to_unsaved_files : preserves files_kept Core.add_to_unsaved.
Proof. intros [s w]. files_done. Qed.

Lemma load_files : preserves files_kept (Core.load P).
Proof. intros [s w]. run_method; files_done. Qed.

Lemma save_files : preserves files_kept (Core.save P).
Proof. intros [s w]. run_method; files_done. Qed.

Lemma log_files lv t c :
  preserves files_kept (liftW (R := gset string) (logging lv t c)).
Proof. intros [s w]. files_done. Qed.

Lemma enter_files : preserves files_kept (Core.__enter__ P).
Proof.
  apply (preserves_try_except _).
  - apply (preserves_bind _); [apply (preserves_gets _)|]. intros s.
    apply (preserves_bind _); [by intros [? ?]|]. intros present.
    destruct present; simpl; [apply load_files|apply add_to_unsaved_files].
  - intros e. apply (preserves_bind _); [apply log_files|].
    intros _. apply (preserves_raise _).
Qed.

Lemma exit_files : preserves files_kept (Core.__exit__ P).
Proof.
  apply (preserves_try_except _); [apply save_files|].
  intros e. apply log_files.
Qed.

(** A save that meets no refusal leaves a file at the path. *)
Lemma save_creates_file st :
  denied st.2 !! filename st.1 = None →
  filename st.1 ∈ dom (files (Core.save P st).2.2).
Proof.
  destruct st as [s w]. simpl. intros Hden. run_method;
    rewrite ?dom_insert_L; set_solver.
Qed.

Lemma exit_creates_file st :
  denied st.2 !! filename st.1 = None →
  filename st.1 ∈ dom (files (Core.__exit__ P st).2.2).
Proof.
  intros Hden. pose proof (save_creates_file st Hden) as Hs.
  unfold Core.__exit__, try_except.
  destruct (Core.save P st) as [[?|e] st']; simpl in *; [done|].
  by destruct (handles _ e).
Qed.

Lemma sweep_path_files p : preserves files_kept_world (Core.sweep_path P p).
Proof.
  intros w. unfold Core.sweep_path, bind, call.
  set (w0 := set_unsaved (λ r, {[check_file_name p]} ∪ r)
               (set_heap (λ h, h ++ [[]]) w)).
  set (db := Instance (check_file_name p) (length (heap w)) globals_loc).
  change (Core.__init__ p None w) with (Return db, w0).
  pose proof (preserves_with files_kept _ _ _ enter_files exit_files
    (λ _ : unit, preserves_bind files_kept _ _ load_files (λ _, save_files))
    (db, w0)) as (_ & Hden & Hdom).
  simpl in Hden, Hdom.
  destruct (with_ _ _ _ (db, w0)) as [[a|e] [db' w']]; simpl in *; done.
Qed.

(** What one round of the loop leaves when it ends normally. *)
Lemma sweep_path_saves p w w' :
  Core.sweep_path P p w = (Return tt, w') →
  denied w !! check_file_name p = None →
  check_file_name p ∈ dom (files w').
Proof.
  unfold Core.sweep_path, bind, call.
  set (w0 := set_unsaved (λ r, {[check_file_name p]} ∪ r)
               (set_heap (λ h, h ++ [[]]) w)).
  set (db := Instance (check_file_name p) (length (heap w)) globals_loc).
  change (Core.__init__ p None w) with (Return db, w0). cbv beta iota.
  destruct (with_ _ _ _ (db, w0)) as [[a|e] [db' w1]] eqn:Hwith; [|done].
  intros [= ->] Hden.
  apply with_returns in Hwith as (v & st1 & st2 & Henter & Hbody & Hexit).
  pose proof (enter_files (db, w0)) as He. rewrite Henter in He.
  pose proof (preserves_bind files_kept _ _ load_files (λ _, save_files) st1)
    as Hb. unfold bind in Hb. rewrite Hbody in Hb.
  destruct He as (Hf1 & Hd1 & _), Hb as (Hf2 & Hd2 & _). simpl in *.
  pose proof (exit_creates_file st2) as Hx. rewrite Hexit in Hx. simpl in Hx.
  rewrite Hd2, Hd1, Hf2, Hf1 in Hx. by apply Hx.
Qed.

(** The loop goes through the list it was given, whatever the rounds do
    to the registry. *)
Lemma save_all_in_cons p ps w :
  Core.save_all_in P (p :: ps) w =
    match Core.sweep_path P p w with
    | (Return _, w') => Core.save_all_in P ps w'
    | (Raise e, w') => (Raise e, w')
    end.
Proof. reflexivity. Qed.

Lemma save_all_in_files ps : preserves files_kept_world (Core.save_all_in P ps).
Proof. apply (preserves_for_each _). apply sweep_path_files. Qed.

Lemma save_all_in_saves ps w w' :
  Core.save_all_in P ps w = (Return tt, w') →
  ∀ p, p ∈ ps →
    denied w !! check_file_name p = None →
    check_file_name p ∈ dom (files w').
Proof.
  revert w. induction ps as [|q ps IH]; intros w Hrun p Hin Hden.
  - by apply elem_of_nil in Hin.
  - rewrite save_all_in_cons in Hrun.
    destruct (Core.sweep_path P q w) as [[[]|e] w1] eqn:Hq; [|done].
    pose proof (sweep_path_files q w) as (Hd1 & Hdom1). rewrite Hq in Hd1, Hdom1.
    simpl in *.
    pose proof (save_all_in_files ps w1) as (_ & Hdom2). rewrite Hrun in Hdom2.
    simpl in *.
    apply elem_of_cons in Hin as [->|Hin].
    + apply Hdom2. by apply (sweep_path_saves q w).
    + apply (IH w1); [done..|]. by rewrite Hd1.
Qed.

(** In [variabledb/core.py] the sweep works on the registry as it was
    when it began, and one that ends normally has left a file for
    every path that was registered then and that [open] accepts. *)
Lemma core_sweep_covers_the_snapshot w w' :
  Core.save_all_open_files P w
  = Core.save_all_in P (elements (unsaved_files w)) w
  ∧ (Core.save_all_open_files P w = (Return tt, w') →
     ∀ p, p ∈ unsaved_files w →
       denied w !! check_file_name p = None →
       check_file_name p ∈ dom (files w')).
Proof.
  split; [done|]. intros Hrun p Hp.
  apply (save_all_in_saves (elements (unsaved_files w)) w); [done|].
  by apply elem_of_elements.
Qed.
End CoreSweep.

Section LegacyFacts.
Import Sample Scenario.

(** C5.  In [variabledb.py], after [VariableDb("a")] twice the list
    holds the path twice; a [save()] of the first store that goes
    through (the file is written, nothing is logged) takes one
    occurrence out, and the path of the store is still registered. *)
Theorem legacy_save_leaves_path_registered :
  let db1 := legacy_twice.1.1 in
  let w := legacy_twice.2 in
  let st' := (Legacy.save P (db1, w)).2 in
  filename db1 = "a.db"
  ∧ unsaved_files w = ["a.db"; "a.db"]
  ∧ save_attempt P (db1, w) = Saved []
  ∧ (Legacy.save P (db1, w)).1 = Return tt
  ∧ files st'.2 !! "a.db" = Some []
  ∧ log st'.2 = []
  ∧ unsaved_files st'.2 = ["a.db"]
  ∧ filename db1 ∈ unsaved_files st'.2.
Proof. vm_compute. repeat split. left. Qed.

(** C6.  In [variabledb.py], with the stores [VariableDb("a")] and
    [VariableDb("b")] registered, [save_all_open_files] ends normally
    (with any fuel from 2 on) after one round: [a.db] is written, and
    [b.db], which was registered when the sweep began, is neither
    loaded nor saved and stays registered. *)
Theorem legacy_sweep_skips_a_path :
  unsaved_files legacy_a_b = ["a.db"; "b.db"]
  ∧ ∀ k, ∃ w',
      Legacy.save_all_open_files P (2 + k) legacy_a_b = Some (Return tt, w')
      ∧ is_Some (files w' !! "a.db")
      ∧ files w' !! "b.db" = None
      ∧ unsaved_files w' = ["b.db"]
      ∧ log w' = [].
Proof.
  split; [reflexivity|]. intros k. eexists. split.
  - vm_compute. reflexivity.
  - vm_compute. repeat split. by eexists.
Qed.

(** The same two stores in [variabledb/core.py]: both paths are saved
    and none stays registered. *)
Example core_sweep_sample :
  elements (unsaved_files core_a_b) = ["a.db"; "b.db"]
  ∧ ∃ w', Core.save_all_open_files P core_a_b = (Return tt, w')
      ∧ is_Some (files w' !! "a.db")
      ∧ is_Some (files w' !! "b.db")
      ∧ unsaved_files w' = ∅.
Proof.
  split; [by vm_compute|]. eexists. split.
  - vm_compute. reflexivity.
  - vm_compute. repeat split; by eexists.
Qed.
End LegacyFacts.


(** ** The list-based registry of [variabledb.py] *)

Global Instance legacy_registry_grows_preorder : PreOrder legacy_registry_grows.
Proof.
  split.
  - by intros st p.
  - intros st1 st2 st3 H12 H23 p Hp. by apply H23, H12.
Qed.

Ltac run_legacy_method :=
  unfold Legacy.add, Legacy.delete, Legacy.replace, Legacy.clear, Legacy.load,
    Legacy.save, Legacy.get_variable_name, Legacy.add_to_unsaved,
    add, delete, replace, clear, load, get_variable_name,
    try_except, bind, ret, raise, liftW, mutate, alloc, logging, modify,
    open_rb, open_wb, write, set_data, self, data_dict, scope_dict, gets;
  simpl;
  repeat (case_match; simpl; simplify_eq/=).

Section LegacyRegistry.
Variable P : pickler.
Implicit Types (st : VariableDb * world (list string)).

Ltac legacy_done :=
  unfold legacy_registry_grows, set_unsaved; simpl;
  repeat case_bool_decide; set_solver.

Lemma legacy_add_to_unsaved_registry :
  preserves legacy_registry_grows Legacy.add_to_unsaved.
Proof. intros [s w]. run_legacy_method; legacy_done. Qed.

Lemma legacy_add_registry v : preserves legacy_registry_grows (Legacy.add v).
Proof. intros [s w]. run_legacy_method; legacy_done. Qed.

Lemma legacy_delete_registry v :
  preserves legacy_registry_grows (Legacy.delete v).
Proof. intros [s w]. run_legacy_method; legacy_done. Qed.

Lemma legacy_replace_registry v :
  preserves legacy_registry_grows (Legacy.replace v).
Proof. intros [s w]. run_legacy_method; legacy_done. Qed.

Lemma legacy_clear_registry : preserves legacy_registry_grows Legacy.clear.
Proof. intros [s w]. run_legacy_method; legacy_done. Qed.

Lemma legacy_load_registry : preserves legacy_registry_grows (Legacy.load P).
Proof. intros [s w]. run_legacy_method; legacy_done. Qed.

Lemma legacy_log_registry lv t c :
  preserves legacy_registry_grows (liftW (R := list string) (logging lv t c)).
Proof. intros [s w]. legacy_done. Qed.

Lemma legacy_add_multiple_registry vs :
  preserves legacy_registry_grows (Legacy.add_multiple vs).
Proof.
  apply (preserves_try_except _).
  - apply (preserves_bind _).
    + apply (preserves_for_each _). apply legacy_add_registry.
    + intros _. apply legacy_add_to_unsaved_registry.
  - intros e. apply legacy_log_registry.
Qed.

Lemma legacy_enter_registry :
  preserves legacy_registry_grows (Legacy.__enter__ P).
Proof.
  apply (preserves_try_except _).
  - apply (preserves_bind _); [apply (preserves_gets _)|]. intros s.
    apply (preserves_bind _); [by intros [? ?]|]. intros present.
    destruct present; simpl.
    + apply (preserves_bind _); [apply legacy_load_registry|].
      intros _. apply (preserves_ret _).
    + apply (preserves_bind _); [apply legacy_add_to_unsaved_registry|].
      intros _. apply (preserves_ret _).
  - intros e. apply (preserves_bind _); [apply legacy_log_registry|].
    intros _. apply (preserves_ret _).
Qed.

(** The constructor appends the path, whether it is listed or not. *)
Lemma legacy_init_appends_path path sc w s w0 :
  Legacy.__init__ path sc w = (Return s, w0) →
  filename s = check_file_name path
  ∧ entries (s, w0) = []
  ∧ unsaved_files w0 = unsaved_files w ++ [check_file_name path]
  ∧ filename s ∈ unsaved_files w0.
Proof.
  unfold Legacy.__init__, bind, alloc, ret, raise, modify. intros Hinit.
  destruct sc as [[l|o]|]; simplify_eq/=;
    (split; [done|]; split; [apply deref_alloc_new|]; split; [done|];
     set_solver).
Qed.

Lemma list_remove_length x (l : list string) :
  x ∈ l → S (length (Legacy.list_remove x l)) = length l.
Proof.
  induction l as [|y l IH]; simpl; [by intros ?%elem_of_nil|].
  destruct (String.eqb_spec x y) as [->|Hne]; [done|].
  intros [?|Hin]%elem_of_cons; [done|]. simpl. by rewrite IH.
Qed.

(** A save that goes through takes one occurrence of the path out of
    the list; one that fails leaves the list as it is. *)
Lemma legacy_save_registry st :
  match save_attempt P st with
  | Saved _ =>
      (Legacy.save P st).1 = Return tt
      ∧ unsaved_files (Legacy.save P st).2.2
        = if bool_decide (filename st.1 ∈ unsaved_files st.2)
          then Legacy.list_remove (filename st.1) (unsaved_files st.2)
          else unsaved_files st.2
  | SaveFailed e =>
      unsaved_files (Legacy.save P st).2.2 = unsaved_files st.2
  end.
Proof.
  destruct st as [s w]. unfold save_attempt. simpl.
  run_legacy_method; try done.
  all: change (entries (s, set_files _ w)) with (entries (s, w)) in *;
    congruence.
Qed.
End LegacyRegistry.


(** ** The statements above on the sample stores *)
Section Witnesses.
Import Sample Scenario.

(** The store that holds [x_val = 100]. *)
Lemma sample_serializable :
  serializable P (entries (Core.add hundred (constructed "t" x_val_scope)).2).
Proof.
  exists [Byte.x05; Byte.x78; Byte.x5f; Byte.x76; Byte.x61; Byte.x6c; Byte.x64],
    [("x_val", PyObj 1000 (PInt 100))].
  split; [reflexivity|]. split; [reflexivity|].
  intros k. simpl. by destruct (String.eqb k "x_val").
Defined.

Lemma save_then_load_round_trip_witness :
  serializable P (entries (Core.add hundred (constructed "t" x_val_scope)).2)
  ∧ denied (Core.add hundred (constructed "t" x_val_scope)).2.2 !! "t.db" = None
  ∧ check_file_name "t" = "t.db"
  ∧ dict_eqv
      (entries
         (Core.load P
            (Instance "t.db" 0 0,
             (Core.save P (Core.add hundred (constructed "t" x_val_scope)).2).2.2)).2)
      [("x_val", hundred)].
Proof.
  split; [apply sample_serializable|]. split; [reflexivity|].
  split; [reflexivity|].
  apply (save_then_load_round_trip P
           (Core.add hundred (constructed "t" x_val_scope)).2 "t"
           sample_serializable eq_refl eq_refl).
  reflexivity.
Defined.

Lemma scope_is_only_read_witness :
  valid (constructed "t" a_b_scope)
  ∧ bindings
      (run_ops P [OpAdd one; OpAddByName "b"; OpDelete one; OpSave; OpClear;
                  OpLoad; OpReplace two; OpAddMultiple [one; stray]]
         (constructed "t" a_b_scope))
    = a_b_scope.
Proof.
  split; [apply constructed_valid|].
  apply (scope_is_only_read P
           [OpAdd one; OpAddByName "b"; OpDelete one; OpSave; OpClear;
            OpLoad; OpReplace two; OpAddMultiple [one; stray]]
           (constructed "t" a_b_scope) (constructed_valid "t" a_b_scope)).
Defined.

Lemma construction_registers_path_witness :
  Core.__init__ "t" (Some (ScopeDict 1)) (start ∅ a_b_scope)
  = (Return (constructed "t" a_b_scope).1, (constructed "t" a_b_scope).2)
  ∧ "t.db" ∈ unsaved_files (constructed "t" a_b_scope).2.
Proof.
  split; [reflexivity|].
  apply (construction_registers_path P "t" (Some (ScopeDict 1))
           (start ∅ a_b_scope) (constructed "t" a_b_scope).1
           (constructed "t" a_b_scope).2 eq_refl).
Defined.
End Witnesses.


Section LegacyLoop.
Variable P : pickler.
Implicit Types (w : world (list string)).

(** One round of the loop of [variabledb.py] for a path that [open]
    refuses: the constructor lists the path once more, both saves are
    logged, and nothing is removed. *)
Lemma legacy_sweep_path_refused w e :
  files w !! "a.db" = None →
  denied w !! "a.db" = Some e →
  handles [OSError; PicklingError] e = true →
  ∃ w', Legacy.sweep_path P "a.db" w = (Return tt, w')
    ∧ unsaved_files w' = unsaved_files w ++ ["a.db"]
    ∧ files w' = files w
    ∧ denied w' = denied w.
Proof.
  intros Hf Hd He.
  unfold Legacy.sweep_path, Legacy.__init__, call, with_, Legacy.__enter__,
    Legacy.__exit__, Legacy.save, Legacy.add_to_unsaved, try_except, bind,
    ret, liftW, alloc, modify, os_path_exists, open_wb, self, gets.
  change (check_file_name "a.db") with "a.db".
  simpl. rewrite Hf. simpl. rewrite Hd. rewrite He. simpl.
  rewrite Hd. rewrite He. simpl.
  eexists. split; [reflexivity|]. simpl.
  rewrite bool_decide_true by set_solver. done.
Qed.

Lemma legacy_sweep_never_ends fuel : ∀ idx w e,
  files w !! "a.db" = None →
  denied w !! "a.db" = Some e →
  handles [OSError; PicklingError] e = true →
  (∃ n, idx < n ∧ unsaved_files w = replicate n "a.db") →
  Legacy.save_all_from P fuel idx w = None.
Proof.
  induction fuel as [|fuel IH]; intros idx w e Hf Hd He (n & Hlt & Hreg);
    simpl; [done|].
  rewrite Hreg, lookup_replicate_2 by done.
  destruct (legacy_sweep_path_refused w e Hf Hd He) as (w' & -> & Hr & Hf' & Hd').
  apply (IH (S idx) w' e).
  - by rewrite Hf'.
  - by rewrite Hd'.
  - done.
  - exists (S n). split; [lia|].
    rewrite Hr, Hreg. by rewrite replicate_S_end.
Qed.
End LegacyLoop.

(** With a path that [open] refuses, the sweep of [variabledb.py] runs
    out of any fuel: every round lists the path once more. *)
Lemma legacy_sweep_may_not_end fuel :
  Legacy.save_all_open_files Sample.P fuel Scenario.legacy_refused = None.
Proof.
  apply (legacy_sweep_never_ends Sample.P fuel 0 Scenario.legacy_refused
           (Exn PermissionError "Permission denied")); try done.
  exists 1. split; [lia|done].
Qed.

(** * Further properties *)

(** ** More on dictionaries *)
Section DictMore.
Implicit Types (d : pydict) (k n : string) (v : pyobj).

Lemma dict_get_None_keys n d : dict_get n d = None ↔ n ∉ d.*1.
Proof.
  induction d as [|[k x] d IH]; csimpl.
  - split; [intros _ ?%elem_of_nil|]; done.
  - destruct (String.eqb_spec n k) as [->|Hne].
    + split; [done|]. intros []. left.
    + rewrite IH, not_elem_of_cons. split; [by intros ?|by intros [_ ?]].
Qed.

Lemma dict_get_elem_of n x d : dict_wf d → (n, x) ∈ d → dict_get n d = Some x.
Proof.
  unfold dict_wf. induction d as [|[k y] d IH]; csimpl.
  - by intros _ ?%elem_of_nil.
  - intros [Hk Hd]%NoDup_cons [[= -> ->]|Hin]%elem_of_cons.
    + by rewrite String.eqb_refl.
    + destruct (String.eqb_spec n k) as [->|Hne]; [|by apply IH].
      destruct Hk. apply list_elem_of_fmap. by exists (k, x).
Qed.

Lemma dict_set_length_new n v d :
  dict_get n d = None → length (dict_set n v d) = S (length d).
Proof.
  induction d as [|[k x] d IH]; csimpl; [done|].
  destruct (String.eqb_spec n k) as [->|Hne]; [done|].
  intros H. csimpl. by rewrite IH.
Qed.

Lemma dict_set_length_old n v d :
  is_Some (dict_get n d) → length (dict_set n v d) = length d.
Proof.
  induction d as [|[k x] d IH]; csimpl; [by intros [? ?]|].
  destruct (String.eqb_spec n k) as [->|Hne]; [done|].
  intros H. csimpl. by rewrite IH.
Qed.

Lemma dict_set_keys_old n v d :
  is_Some (dict_get n d) → (dict_set n v d).*1 = d.*1.
Proof.
  induction d as [|[k x] d IH]; csimpl; [by intros [? ?]|].
  destruct (String.eqb_spec n k) as [->|Hne]; [done|].
  intros H. csimpl. by rewrite IH.
Qed.

Lemma dict_set_keys_new n v d :
  dict_get n d = None → (dict_set n v d).*1 = d.*1 ++ [n].
Proof.
  induction d as [|[k x] d IH]; csimpl; [done|].
  destruct (String.eqb_spec n k) as [->|Hne]; [done|].
  intros H. csimpl. by rewrite IH.
Qed.

Lemma dict_del_absent n d : dict_get n d = None → dict_del n d = d.
Proof.
  induction d as [|[k x] d IH]; csimpl; [done|].
  destruct (String.eqb_spec n k) as [->|Hne]; [done|].
  intros H. by rewrite IH.
Qed.

Lemma dict_del_set_new n v d :
  dict_get n d = None → dict_del n (dict_set n v d) = d.
Proof.
  induction d as [|[k x] d IH]; csimpl.
  - by rewrite String.eqb_refl.
  - destruct (String.eqb_spec n k) as [->|Hne]; [done|].
    intros H. csimpl. destruct (String.eqb_spec n k); [done|]. by rewrite IH.
Qed.

Lemma dict_del_length n d :
  dict_wf d → is_Some (dict_get n d) → S (length (dict_del n d)) = length d.
Proof.
  unfold dict_wf. induction d as [|[k x] d IH]; csimpl; [by intros _ [? ?]|].
  intros [Hk Hd]%NoDup_cons.
  destruct (String.eqb_spec n k) as [->|Hne].
  - intros _. rewrite dict_del_absent; [done|]. by apply dict_get_None_keys.
  - intros H. csimpl. by rewrite IH.
Qed.

Lemma dict_wf_set n v d : dict_wf d → dict_wf (dict_set n v d).
Proof.
  unfold dict_wf. intros Hd.
  destruct (dict_get n d) as [x|] eqn:E.
  - by rewrite dict_set_keys_old.
  - rewrite dict_set_keys_new by done.
    apply NoDup_app. split; [done|]. split; [|apply NoDup_singleton].
    intros k Hk ->%list_elem_of_singleton. by apply dict_get_None_keys in E.
Qed.

Lemma dict_del_keys n d : (dict_del n d).*1 ⊆ d.*1.
Proof.
  induction d as [|[k x] d IH]; csimpl; [done|].
  destruct (String.eqb_spec n k) as [->|Hne]; csimpl; set_solver.
Qed.

Lemma dict_wf_del n d : dict_wf d → dict_wf (dict_del n d).
Proof.
  unfold dict_wf. induction d as [|[k x] d IH]; csimpl; [done|].
  intros [Hk Hd]%NoDup_cons.
  destruct (String.eqb_spec n k) as [->|Hne]; [by apply IH|].
  csimpl. apply NoDup_cons. split; [|by apply IH].
  intros Hin. apply Hk. by apply (dict_del_keys n d).
Qed.

Lemma dict_mem_set k n v d :
  dict_mem k (dict_set n v d) = dict_mem k d || String.eqb k n.
Proof.
  unfold dict_mem. destruct (String.eqb_spec k n) as [->|Hne].
  - rewrite dict_get_set_eq. by destruct (dict_get n d).
  - rewrite dict_get_set_ne by done. by destruct (dict_get k d).
Qed.
End DictMore.

(** ** Name resolution, [add], [delete] and [replace] together *)
Section EntriesMore.
Import Sample Scenario.
Implicit Types (st : VariableDb * world (gset string)) (v : pyobj).

Lemma first_bound_position v (d : pydict) n :
  first_bound v d = Some n →
  ∃ i x, d !! i = Some (n, x) ∧ is_ x v = true
    ∧ ∀ j m y, j < i → d !! j = Some (m, y) → is_ y v = false.
Proof.
  induction d as [|[k x] d IH]; simpl; [done|].
  destruct (is_ x v) eqn:E.
  - intros [= <-]. exists 0, x. repeat split; [done|]. intros; lia.
  - intros H. destruct (IH H) as (i & y & Hi & Hy & Hbefore).
    exists (S i), y. repeat split; [done..|].
    intros [|j] m z Hj Hlook; simpl in *; [by simplify_eq|].
    apply (Hbefore j m z); [lia|done].
Qed.

(** X1.  [get_variable_name] neither raises nor changes anything.  A
    name it returns is bound in the scope to the very object asked
    for, and no item before it in the scope is; it returns [None]
    exactly when no item of the scope holds that object, whatever
    objects with an equal content the scope may hold. *)
Theorem get_variable_name_finds_first_identity v st :
  match Core.get_variable_name v st with
  | (Return (Some n), st') =>
      st' = st
      ∧ ∃ i x, bindings st !! i = Some (n, x) ∧ oid x = oid v
          ∧ ∀ j m y, j < i → bindings st !! j = Some (m, y) → oid y ≠ oid v
  | (Return None, st') =>
      st' = st ∧ ∀ m y, (m, y) ∈ bindings st → oid y ≠ oid v
  | (Raise _, _) => False
  end.
Proof.
  unfold Core.get_variable_name, get_variable_name, bind, scope_dict, gets, ret.
  destruct (first_bound v (bindings st)) as [n|] eqn:E.
  - split; [done|].
    destruct (first_bound_position _ _ _ E) as (i & x & Hi & Hx & Hbefore).
    exists i, x. split; [done|]. split; [by apply Nat.eqb_eq|].
    intros j m y Hj Hlook. apply Nat.eqb_neq. by apply (Hbefore j m y).
  - split; [done|]. intros m y Hin. apply Nat.eqb_neq.
    by apply (proj1 (first_bound_None v (bindings st)) E m y).
Qed.

Lemma add_length v st :
  valid st →
  length (entries (Core.add v st).2) + length (log (Core.add v st).2.2)
  = S (length (entries st) + length (log st.2)).
Proof.
  intros Hv.
  destruct (first_bound v (bindings st)) as [n|] eqn:E1.
  - destruct (dict_mem n (entries st)) eqn:E2.
    + rewrite (add_duplicate _ _ _ E1 E2). simpl. rewrite length_app. simpl.
      change (entries (st.1, _)) with (entries st). lia.
    + rewrite (add_inserts_entries _ _ _ Hv E1 E2), (add_inserts _ _ _ E1 E2).
      simpl. rewrite dict_set_length_new by by apply dict_mem_false. lia.
  - rewrite (add_unresolved _ _ E1). simpl. rewrite length_app. simpl.
    change (entries (st.1, _)) with (entries st). lia.
Qed.

Lemma add_log_texts v st :
  ∃ recs, log (Core.add v st).2.2 = log st.2 ++ recs
    ∧ Forall (λ r, text r = "Failed to add variable" ∧ level r = ERROR) recs.
Proof.
  destruct (first_bound v (bindings st)) as [n|] eqn:E1.
  - destruct (dict_mem n (entries st)) eqn:E2.
    + rewrite (add_duplicate _ _ _ E1 E2). eexists. split; [done|].
      by repeat constructor.
    + rewrite (add_inserts _ _ _ E1 E2). exists []. by rewrite app_nil_r.
  - rewrite (add_unresolved _ _ E1). eexists. split; [done|].
    by repeat constructor.
Qed.

Lemma add_each_length vs st :
  valid st →
  length (entries (add_each vs st)) + length (log (add_each vs st).2)
  = length vs + (length (entries st) + length (log st.2)).
Proof.
  revert st. induction vs as [|v vs IH]; intros st Hv; simpl; [done|].
  rewrite IH by by apply add_valid. rewrite add_length by done. lia.
Qed.

Lemma add_each_log_texts vs st :
  ∃ recs, log (add_each vs st).2 = log st.2 ++ recs
    ∧ Forall (λ r, text r = "Failed to add variable" ∧ level r = ERROR) recs.
Proof.
  revert st. induction vs as [|v vs IH]; intros st; simpl.
  - exists []. by rewrite app_nil_r.
  - destruct (IH (Core.add v st).2) as (recs2 & -> & H2).
    destruct (add_log_texts v st) as (recs1 & -> & H1).
    exists (recs1 ++ recs2). split; [by rewrite app_assoc|].
    by apply Forall_app.
Qed.

(** X2.  [add_multiple] accounts for every value exactly once: a value
    either becomes a new entry or leaves one record in the log, so the
    entries and the log together grow by the number of values.  Every
    record is the one of [add]; the handler of [add_multiple] itself
    never writes.  The path of the store is marked dirty in any case,
    also when no value was given or none was stored. *)
Theorem add_multiple_stores_or_logs_each_value vs st :
  valid st →
  length (entries (Core.add_multiple vs st).2)
  + length (log (Core.add_multiple vs st).2.2)
  = length vs + (length (entries st) + length (log st.2))
  ∧ (∃ recs, log (Core.add_multiple vs st).2.2 = log st.2 ++ recs
       ∧ Forall (λ r, text r = "Failed to add variable" ∧ level r = ERROR)
           recs)
  ∧ filename st.1 ∈ unsaved_files (Core.add_multiple vs st).2.2.
Proof.
  intros Hv. rewrite add_multiple_eval.
  assert ((add_each vs st).1 = st.1) as Hself.
  { clear Hv. revert st. induction vs as [|v vs IH]; intros st; simpl; [done|].
    by rewrite IH, add_instance. }
  destruct (add_each vs st) as [s' w'] eqn:E. simpl in *.
  pose proof (add_each_length vs st Hv) as Hlen.
  pose proof (add_each_log_texts vs st) as Hlog.
  rewrite E in Hlen, Hlog. subst s'. repeat split; [done..|set_solver].
Qed.

Lemma add_multiple_stores_or_logs_each_value_witness :
  valid (constructed "t" a_b_scope)
  ∧ length (entries (Core.add_multiple [stray; one; one; two]
                       (constructed "t" a_b_scope)).2)
    + length (log (Core.add_multiple [stray; one; one; two]
                     (constructed "t" a_b_scope)).2.2)
    = 4 + (0 + 0).
Proof.
  split; [apply constructed_valid|].
  apply (add_multiple_stores_or_logs_each_value [stray; one; one; two]
           (constructed "t" a_b_scope) (constructed_valid "t" a_b_scope)).
Defined.

(** X3.  A second [add] of an object that was just stored changes
    nothing but the log: it does not overwrite, it is recorded as a
    [KeyError] and returns normally. *)
Theorem add_twice_logs_duplicate v st n :
  valid st →
  first_bound v (bindings st) = Some n →
  dict_mem n (entries st) = false →
  Core.add v (Core.add v st).2
  = (Return tt,
     ((Core.add v st).2.1,
      set_log (λ l, l ++ [add_failed
         (Exn KeyError ("Variable '" +:+ n +:+ "' already exists"))])
        (Core.add v st).2.2)).
Proof.
  intros Hv E1 E2. apply add_duplicate.
  - by rewrite add_bindings.
  - rewrite (add_inserts_entries _ _ _ Hv E1 E2).
    apply dict_mem_true. rewrite dict_get_set_eq. by eexists.
Qed.

Lemma add_twice_logs_duplicate_witness :
  valid (constructed "t" x_val_scope)
  ∧ first_bound hundred (bindings (constructed "t" x_val_scope)) = Some "x_val"
  ∧ dict_mem "x_val" (entries (constructed "t" x_val_scope)) = false
  ∧ entries (Core.add hundred
               (Core.add hundred (constructed "t" x_val_scope)).2).2
    = [("x_val", hundred)].
Proof.
  split; [apply constructed_valid|]. split; [reflexivity|].
  split; [reflexivity|].
  rewrite (add_twice_logs_duplicate hundred (constructed "t" x_val_scope)
             "x_val" (constructed_valid "t" x_val_scope) eq_refl eq_refl).
  reflexivity.
Defined.

(** X4.  [delete] undoes [add]: after [add(v)] has stored a new entry,
    [delete(v)] leaves the entries exactly as they were before the
    two calls, the scope untouched and the store marked dirty. *)
Theorem delete_undoes_add v st n :
  valid st →
  first_bound v (bindings st) = Some n →
  dict_mem n (entries st) = false →
  entries (Core.delete v (Core.add v st).2).2 = entries st
  ∧ bindings (Core.delete v (Core.add v st).2).2 = bindings st
  ∧ (Core.delete v (Core.add v st).2).1 = Return tt
  ∧ filename st.1 ∈ unsaved_files (Core.delete v (Core.add v st).2).2.2.
Proof.
  intros Hv E1 E2.
  pose proof (add_valid v st Hv) as Hv1.
  pose proof (add_bindings v st Hv) as Hb.
  pose proof (add_inserts_entries _ _ _ Hv E1 E2) as He.
  pose proof (add_instance v st) as Hi.
  assert (dict_mem n (entries (Core.add v st).2) = true) as E2'.
  { rewrite He. apply dict_mem_true. rewrite dict_get_set_eq. by eexists. }
  assert (first_bound v (bindings (Core.add v st).2) = Some n) as E1'
    by by rewrite Hb.
  rewrite (delete_removes _ _ _ E1' E2').
  destruct (Core.add v st).2 as [s1 w1]. destruct Hv1 as (Hd & Hs & Hne).
  simpl in *. subst s1. unfold entries at 1, bindings at 1, deref. simpl.
  rewrite list_lookup_insert_eq, list_lookup_insert_ne by done. simpl.
  split; [|split; [done|split; [done|set_solver]]].
  rewrite He. apply dict_del_set_new. by apply dict_mem_false.
Qed.

Lemma delete_undoes_add_witness :
  valid (constructed "t" a_b_scope)
  ∧ first_bound two (bindings (constructed "t" a_b_scope)) = Some "b"
  ∧ dict_mem "b" (entries (constructed "t" a_b_scope)) = false
  ∧ entries (Core.delete two (Core.add two (constructed "t" a_b_scope)).2).2
    = [].
Proof.
  split; [apply constructed_valid|]. split; [reflexivity|].
  split; [reflexivity|].
  apply (delete_undoes_add two (constructed "t" a_b_scope) "b"
           (constructed_valid "t" a_b_scope) eq_refl eq_refl).
Defined.
End EntriesMore.

(** ** [replace], [add_by_name], [__len__], [clear] *)
Section ReplaceMore.
Import Sample Scenario.
Implicit Types (st : VariableDb * world (gset string)) (v : pyobj).

Lemma replace_unresolved v st :
  first_bound v (bindings st) = None →
  Core.replace v st =
    (Return tt,
     (st.1, set_log (λ l, l ++ [replace_failed
        (Exn ValueError "Could not determine variable name")]) st.2)).
Proof.
  intros H. destruct st as [s w].
  unfold Core.replace, replace, try_except, bind, get_variable_name,
    scope_dict, gets.
  simpl in *. rewrite H. reflexivity.
Qed.

Lemma replace_absent v st n :
  first_bound v (bindings st) = Some n →
  dict_mem n (entries st) = false →
  Core.replace v st =
    (Return tt,
     (st.1, set_log (λ l, l ++ [replace_failed
        (Exn KeyError ("Variable '" +:+ n +:+ "' does not exist"))]) st.2)).
Proof.
  intros H1 H2. destruct st as [s w].
  unfold Core.replace, replace, try_except, bind, get_variable_name,
    scope_dict, data_dict, gets.
  simpl in *. rewrite H1. simpl. rewrite H2. reflexivity.
Qed.

Lemma replace_overwrites v st n :
  first_bound v (bindings st) = Some n →
  dict_mem n (entries st) = true →
  Core.replace v st =
    (Return tt,
     (st.1,
      set_unsaved (λ r, {[filename st.1]} ∪ r)
        (set_heap (λ h, <[data st.1 := dict_set n v (entries st)]> h) st.2))).
Proof.
  intros H1 H2. destruct st as [s w].
  unfold Core.replace, replace, try_except, bind, get_variable_name,
    scope_dict, data_dict, gets.
  simpl in *. rewrite H1. simpl. rewrite H2. reflexivity.
Qed.

Lemma replace_keys v st :
  valid st → (entries (Core.replace v st).2).*1 = (entries st).*1.
Proof.
  intros (Hd & _).
  destruct (first_bound v (bindings st)) as [n|] eqn:E1.
  - destruct (dict_mem n (entries st)) eqn:E2.
    + rewrite (replace_overwrites _ _ _ E1 E2). unfold entries at 1, deref.
      simpl. rewrite list_lookup_insert_eq by done. simpl.
      by apply dict_set_keys_old, dict_mem_true.
    + by rewrite (replace_absent _ _ _ E1 E2).
  - by rewrite (replace_unresolved _ _ E1).
Qed.

(** X5.  [replace] never creates and never removes a key: after it the
    entries have the same keys in the same order.  When the object is
    bound in the scope to a name that is stored, that name now holds
    the object and every other name holds what it held; otherwise the
    entries are unchanged and the failure is recorded, as a
    [ValueError] for an object bound nowhere and as a [KeyError] for a
    name that is not stored. *)
Theorem replace_keeps_the_keys v st :
  valid st →
  (entries (Core.replace v st).2).*1 = (entries st).*1
  ∧ (Core.replace v st).1 = Return tt
  ∧ match first_bound v (bindings st) with
    | None =>
        entries (Core.replace v st).2 = entries st
        ∧ log (Core.replace v st).2.2
          = log st.2 ++ [replace_failed
               (Exn ValueError "Could not determine variable name")]
    | Some n =>
        if dict_mem n (entries st) then
          dict_get n (entries (Core.replace v st).2) = Some v
          ∧ (∀ k, k ≠ n →
               dict_get k (entries (Core.replace v st).2)
               = dict_get k (entries st))
          ∧ filename st.1 ∈ unsaved_files (Core.replace v st).2.2
        else
          entries (Core.replace v st).2 = entries st
          ∧ log (Core.replace v st).2.2
            = log st.2 ++ [replace_failed
                 (Exn KeyError ("Variable '" +:+ n +:+ "' does not exist"))]
    end.
Proof.
  intros (Hd & _).
  destruct (first_bound v (bindings st)) as [n|] eqn:E1.
  - destruct (dict_mem n (entries st)) eqn:E2.
    + rewrite (replace_overwrites _ _ _ E1 E2). cbn [fst snd].
      assert (entries (st.1,
                set_unsaved (λ r, {[filename st.1]} ∪ r)
                  (set_heap (λ h, <[data st.1 := dict_set n v (entries st)]> h)
                     st.2)) = dict_set n v (entries st)) as ->.
      { unfold entries, deref. simpl. by rewrite list_lookup_insert_eq. }
      split; [by apply dict_set_keys_old, dict_mem_true|]. split; [done|].
      split; [apply dict_get_set_eq|]. split; [|simpl; set_solver].
      intros k Hk. by apply dict_get_set_ne.
    + by rewrite (replace_absent _ _ _ E1 E2).
  - by rewrite (replace_unresolved _ _ E1).
Qed.

(** A store that holds [x = 1] while the scope now binds [x] to [2]. *)
Lemma replace_keeps_the_keys_witness :
  valid (Instance "t.db" 2 1,
         World [module_globals; [("x", two)]; [("x", one)]]
           (∅ : gset string) ∅ ∅ [])
  ∧ (entries (Core.replace two
                (Instance "t.db" 2 1,
                 World [module_globals; [("x", two)]; [("x", one)]]
                   (∅ : gset string) ∅ ∅ [])).2).*1
    = ["x"]
  ∧ dict_get "x"
      (entries (Core.replace two
                  (Instance "t.db" 2 1,
                   World [module_globals; [("x", two)]; [("x", one)]]
                     (∅ : gset string) ∅ ∅ [])).2)
    = Some two.
Proof.
  assert (valid (Instance "t.db" 2 1,
                 World [module_globals; [("x", two)]; [("x", one)]]
                   (∅ : gset string) ∅ ∅ [])) as Hv.
  { unfold valid. simpl. lia. }
  split; [exact Hv|].
  pose proof (replace_keeps_the_keys two _ Hv) as (Hkeys & _ & Hget & _).
  split; [exact Hkeys|exact Hget].
Defined.

End ReplaceMore.

Section ByNameAndLen.
Import Sample Scenario.
Implicit Types (st : VariableDb * world (gset string)) (v : pyobj).

(** X6.  [add_by_name] raises its errors to the caller, after logging
    them: a [KeyError] for a name that the scope does not have and a
    [KeyError] for a name that is already stored, with the entries and
    the registry left as they are.  Otherwise it stores, under that
    name, the object that the scope binds to it, whatever other names
    bind the same object, keeps the other entries and marks the store
    dirty. *)
Theorem add_by_name_raises_or_stores n st :
  valid st →
  match dict_get n (bindings st) with
  | None =>
      (∃ e, (Core.add_by_name n st).1 = Raise e ∧ cls e = KeyError)
      ∧ entries (Core.add_by_name n st).2 = entries st
      ∧ unsaved_files (Core.add_by_name n st).2.2 = unsaved_files st.2
      ∧ length (log (Core.add_by_name n st).2.2) = S (length (log st.2))
  | Some x =>
      if dict_mem n (entries st) then
        (∃ e, (Core.add_by_name n st).1 = Raise e ∧ cls e = KeyError)
        ∧ entries (Core.add_by_name n st).2 = entries st
        ∧ unsaved_files (Core.add_by_name n st).2.2 = unsaved_files st.2
        ∧ length (log (Core.add_by_name n st).2.2) = S (length (log st.2))
      else
        (Core.add_by_name n st).1 = Return tt
        ∧ dict_get n (entries (Core.add_by_name n st).2) = Some x
        ∧ (∀ k, k ≠ n →
             dict_get k (entries (Core.add_by_name n st).2)
             = dict_get k (entries st))
        ∧ filename st.1 ∈ unsaved_files (Core.add_by_name n st).2.2
        ∧ log (Core.add_by_name n st).2.2 = log st.2
  end.
Proof.
  intros (Hd & _). destruct st as [s w].
  unfold Core.add_by_name, bind, scope_dict, data_dict, gets, dict_mem.
  simpl in *.
  destruct (dict_get n (bindings (s, w))) as [x|] eqn:E1; simpl.
  - destruct (dict_get n (entries (s, w))) as [y|] eqn:E2; simpl.
    + repeat split; [by eexists|]. by rewrite length_app, Nat.add_1_r.
    + unfold entries, deref. simpl. rewrite list_lookup_insert_eq by done.
      simpl. split; [done|]. split; [apply dict_get_set_eq|].
      split; [|split; [set_solver|done]].
      intros k Hk. by apply dict_get_set_ne.
  - repeat split; [by eexists|]. by rewrite length_app, Nat.add_1_r.
Qed.

(** With [a = b = 7], [add_by_name("b")] stores under [b]. *)
Lemma add_by_name_raises_or_stores_witness :
  valid (constructed "t" two_names)
  ∧ (Core.add_by_name "b" (constructed "t" two_names)).1 = Return tt
  ∧ dict_get "b" (entries (Core.add_by_name "b" (constructed "t" two_names)).2)
    = Some seven.
Proof.
  split; [apply constructed_valid|].
  pose proof (add_by_name_raises_or_stores "b" (constructed "t" two_names)
                (constructed_valid "t" two_names)) as (Hret & Hget & _).
  split; [exact Hret|exact Hget].
Defined.

Lemma clear_eval st :
  Core.clear st
  = (Return tt,
     (st.1, set_unsaved (λ r, {[filename st.1]} ∪ r)
              (set_heap (λ h, <[data st.1 := []]> h) st.2))).
Proof. by destruct st. Qed.

(** X7.  [__len__] counts the entries: with entries that hold each key
    once, [add] raises the count by one exactly when it stores,
    [delete] lowers it by one exactly when it removes, [replace]
    leaves it as it is and [clear] brings it to zero. *)
Theorem len_follows_the_entries v st :
  valid st →
  dict_wf (entries st) →
  (__len__ st).1 = Return (length (entries st))
  ∧ (__len__ (Core.replace v st).2).1 = Return (length (entries st))
  ∧ (__len__ (Core.clear st).2).1 = Return 0
  ∧ match first_bound v (bindings st) with
    | None =>
        (__len__ (Core.add v st).2).1 = Return (length (entries st))
        ∧ (__len__ (Core.delete v st).2).1 = Return (length (entries st))
    | Some n =>
        if dict_mem n (entries st) then
          (__len__ (Core.add v st).2).1 = Return (length (entries st))
          ∧ (__len__ (Core.delete v st).2).1
            = Return (length (entries st) - 1)
          ∧ 0 < length (entries st)
        else
          (__len__ (Core.add v st).2).1 = Return (S (length (entries st)))
          ∧ (__len__ (Core.delete v st).2).1 = Return (length (entries st))
    end.
Proof.
  intros Hv Hwf. pose proof Hv as (Hd & _).
  assert (∀ st', (__len__ st').1 = Return (length (entries st'))) as Hlen
    by done.
  rewrite !Hlen. split; [done|]. split.
  { f_equal. rewrite <- !(length_fmap fst).
    by rewrite (replace_keys v st Hv). }
  split.
  { rewrite clear_eval. unfold entries, deref. simpl.
    by rewrite list_lookup_insert_eq. }
  destruct (first_bound v (bindings st)) as [n|] eqn:E1.
  - destruct (dict_mem n (entries st)) eqn:E2.
    + rewrite (add_duplicate _ _ _ E1 E2), (delete_removes _ _ _ E1 E2).
      change (entries (st.1, set_log _ st.2)) with (entries st).
      split; [done|]. unfold entries at 1, deref. simpl.
      rewrite list_lookup_insert_eq by done. simpl.
      pose proof (dict_del_length n (entries st) Hwf
                    (proj1 (dict_mem_true _ _) E2)) as Hdel.
      split; [f_equal|]; lia.
    + rewrite (add_inserts_entries _ _ _ Hv E1 E2).
      unfold Core.delete. rewrite (delete_absent _ _ _ _ E1 E2).
      change (entries (st.1, set_log _ st.2)) with (entries st).
      split; [|done]. f_equal. apply dict_set_length_new.
      by apply dict_mem_false.
  - rewrite (add_unresolved _ _ E1). unfold Core.delete.
    by rewrite (delete_unresolved _ _ _ E1).
Qed.
Lemma len_follows_the_entries_witness :
  valid (Core.add one (constructed "t" a_b_scope)).2
  ∧ dict_wf (entries (Core.add one (constructed "t" a_b_scope)).2)
  ∧ (__len__ (Core.add one (constructed "t" a_b_scope)).2).1 = Return 1
  ∧ (__len__ (Core.clear (Core.add one (constructed "t" a_b_scope)).2).2).1
    = Return 0.
Proof.
  assert (valid (Core.add one (constructed "t" a_b_scope)).2) as Hv.
  { unfold valid. simpl. lia. }
  assert (dict_wf (entries (Core.add one (constructed "t" a_b_scope)).2))
    as Hwf.
  { apply NoDup_singleton. }
  split; [exact Hv|]. split; [exact Hwf|].
  pose proof (len_follows_the_entries two _ Hv Hwf) as (Hlen & _ & Hclear & _).
  split; [exact Hlen|exact Hclear].
Defined.
End ByNameAndLen.

(** ** More on [load], [save] and the [with] block *)

Lemma handles_exception e : handles [Exception] e = true.
Proof. by destruct e as [[] ?]. Qed.

Section PersistMore.
Variable P : pickler.
Implicit Types (st : VariableDb * world (gset string)).

Lemma load_attempt_dict st d :
  load_attempt P st = LoadedDict d →
  ∃ b, files st.2 !! filename st.1 = Some b
    ∧ denied st.2 !! filename st.1 = None
    ∧ pickle_load P b = Loaded (VDict d).
Proof.
  unfold load_attempt. intros H. repeat case_match; simplify_eq. by eexists.
Qed.

Lemma load_error st e :
  load_attempt P st = LoadError e →
  Core.load P st =
    if handles [FileNotFoundError; UnpicklingError; ValueError] e
    then (Return tt,
          (st.1, set_log (λ l, l ++ [load_failed (filename st.1) e]) st.2))
    else (Raise e, st).
Proof.
  destruct st as [s w]. unfold load_attempt. simpl. intros H.
  unfold Core.load, load, try_except, bind, liftW, open_rb, self, gets, raise.
  simpl. repeat case_match; simplify_eq/=; try done.
  all: congruence.
Qed.

(** X8.  [clear] empties the dict object that [self.data] refers to,
    so whoever holds that object sees it empty; a [load] that goes
    through leaves that object as it was and makes [self.data] refer
    to a new object that holds what was read. *)
Theorem clear_in_place_load_rebinds st :
  valid st →
  (data (Core.clear st).2.1 = data st.1
   ∧ deref (Core.clear st).2.2 (data st.1) = []
   ∧ (Core.clear st).1 = Return tt
   ∧ filename st.1 ∈ unsaved_files (Core.clear st).2.2)
  ∧ (∀ d, load_attempt P st = LoadedDict d →
       data (Core.load P st).2.1 ≠ data st.1
       ∧ deref (Core.load P st).2.2 (data st.1) = entries st
       ∧ entries (Core.load P st).2 = d
       ∧ (Core.load P st).1 = Return tt
       ∧ filename st.1 ∈ unsaved_files (Core.load P st).2.2).
Proof.
  intros (Hd & Hs & Hne). split.
  - rewrite clear_eval. unfold deref. simpl.
    rewrite list_lookup_insert_eq by done. split; [done|].
    split; [done|]. split; [done|set_solver].
  - intros d (b & Hf & Hden & Hl)%load_attempt_dict.
    rewrite (load_dict P st b d Hf Hden Hl). simpl.
    split; [lia|]. split; [by apply deref_alloc_old|].
    split; [apply deref_alloc_new|]. split; [done|set_solver].
Qed.

(** X9.  A [load] that does not go through keeps the entries, the
    registry and the files as they are.  A missing file, a pickle that
    cannot be read ([UnpicklingError]) and a pickle that is not a dict
    ([ValueError]) are logged and the call returns normally; any other
    exception, such as the [PermissionError] of a refused [open], is
    raised to the caller and not logged. *)
Theorem load_failure_keeps_the_store st e :
  load_attempt P st = LoadError e →
  (Core.load P st).2.1 = st.1
  ∧ heap (Core.load P st).2.2 = heap st.2
  ∧ unsaved_files (Core.load P st).2.2 = unsaved_files st.2
  ∧ files (Core.load P st).2.2 = files st.2
  ∧ if handles [FileNotFoundError; UnpicklingError; ValueError] e then
      (Core.load P st).1 = Return tt
      ∧ log (Core.load P st).2.2 = log st.2 ++ [load_failed (filename st.1) e]
    else
      (Core.load P st).1 = Raise e
      ∧ log (Core.load P st).2.2 = log st.2.
Proof.
  intros H. rewrite (load_error st e H).
  by destruct (handles _ e).
Qed.

(** X10.  [save] opens the file for writing before it pickles: when
    [pickle.dump] fails, what the file held before is gone (the file
    holds what was written until the failure) and the path stays
    registered; when [open] itself is refused the files are untouched.
    An [OSError] or a [PicklingError] is logged and the call returns
    normally, any other exception reaches the caller. *)
Theorem failed_save_and_the_file st e :
  (∀ partial,
     denied st.2 !! filename st.1 = None →
     pickle_dump P (entries st) = DumpFailed e partial →
     files (Core.save P st).2.2 !! filename st.1 = Some partial
     ∧ (∀ q, q ≠ filename st.1 →
          files (Core.save P st).2.2 !! q = files st.2 !! q))
  ∧ (denied st.2 !! filename st.1 = Some e →
     files (Core.save P st).2.2 = files st.2)
  ∧ (save_attempt P st = SaveFailed e →
     unsaved_files (Core.save P st).2.2 = unsaved_files st.2
     ∧ entries (Core.save P st).2 = entries st
     ∧ if handles [OSError; PicklingError] e then
         (Core.save P st).1 = Return tt
         ∧ log (Core.save P st).2.2
           = log st.2 ++ [save_failed (filename st.1) e]
       else
         (Core.save P st).1 = Raise e
         ∧ log (Core.save P st).2.2 = log st.2).
Proof.
  split; [|split].
  - intros partial Hden Hdump. rewrite (save_dump_failed P st e partial Hden Hdump).
    cbv zeta. destruct (handles _ e); simpl.
    all: split; [apply lookup_insert_eq|].
    all: intros q Hq; by rewrite !lookup_insert_ne.
  - intros Hden. rewrite (save_denied P st e Hden). by destruct (handles _ e).
  - unfold save_attempt. intros Hs.
    destruct (denied st.2 !! filename st.1) as [e'|] eqn:Hden.
    + simplify_eq. rewrite (save_denied P st e Hden). by destruct (handles _ e).
    + destruct (pickle_dump P (entries st)) as [b|e' partial] eqn:Hdump;
        simplify_eq.
      rewrite (save_dump_failed P st e partial Hden Hdump). cbv zeta.
      by destruct (handles _ e).
Qed.

Lemma exit_eval st :
  Core.__exit__ P st =
    match Core.save P st with
    | (Return a, st') => (Return a, st')
    | (Raise e, st') =>
        (Return tt,
         (st'.1,
          set_log (λ l, l ++ [LogRecord ERROR "Failed to save on context exit"
                                (Some e)]) st'.2))
    end.
Proof.
  unfold Core.__exit__, try_except.
  destruct (Core.save P st) as [[a|e] [s' w']]; [done|].
  by rewrite handles_exception.
Qed.

(** X11.  [__exit__] never raises.  When the save goes through it logs
    nothing, the file holds the pickled entries and the path is no
    longer registered; when the save fails, the failure is in the log
    exactly once (written by [save] for an [OSError] or a
    [PicklingError], by [__exit__] for anything else) and the path
    stays registered. *)
Theorem exit_never_raises st :
  (Core.__exit__ P st).1 = Return tt
  ∧ match save_attempt P st with
    | Saved b =>
        log (Core.__exit__ P st).2.2 = log st.2
        ∧ files (Core.__exit__ P st).2.2 !! filename st.1 = Some b
        ∧ filename st.1 ∉ unsaved_files (Core.__exit__ P st).2.2
    | SaveFailed e =>
        log (Core.__exit__ P st).2.2
        = log st.2
          ++ [if handles [OSError; PicklingError] e
              then save_failed (filename st.1) e
              else LogRecord ERROR "Failed to save on context exit" (Some e)]
        ∧ unsaved_files (Core.__exit__ P st).2.2 = unsaved_files st.2
    end.
Proof.
  rewrite exit_eval. unfold save_attempt.
  destruct (denied st.2 !! filename st.1) as [e|] eqn:Hden.
  - rewrite (save_denied P st e Hden). by destruct (handles _ e).
  - destruct (pickle_dump P (entries st)) as [b|e partial] eqn:Hdump.
    + rewrite (save_dumped P st b Hden Hdump). simpl.
      repeat split; [apply lookup_insert_eq|set_solver].
    + rewrite (save_dump_failed P st e partial Hden Hdump). cbv zeta.
      by destruct (handles _ e).
Qed.
End PersistMore.

Section PersistWitnesses.
Import Sample Scenario Disk.

Lemma on_disk_valid junk refusal : valid (on_disk junk refusal).
Proof. unfold valid. simpl. lia. Qed.

Lemma clear_in_place_load_rebinds_witness :
  valid (on_disk [Byte.x01; Byte.x62; Byte.x02] ∅)
  ∧ load_attempt P (on_disk [Byte.x01; Byte.x62; Byte.x02] ∅)
    = LoadedDict [("b", PyObj 1000 (PInt 2))]
  ∧ deref (Core.load P (on_disk [Byte.x01; Byte.x62; Byte.x02] ∅)).2.2 2
    = [("a", one)]
  ∧ entries (Core.load P (on_disk [Byte.x01; Byte.x62; Byte.x02] ∅)).2
    = [("b", PyObj 1000 (PInt 2))].
Proof.
  split; [apply on_disk_valid|]. split; [reflexivity|].
  pose proof (clear_in_place_load_rebinds P
                (on_disk [Byte.x01; Byte.x62; Byte.x02] ∅)
                (on_disk_valid _ _)) as [_ Hload].
  destruct (Hload [("b", PyObj 1000 (PInt 2))] eq_refl) as (_ & Hold & Hnew & _).
  split; [exact Hold|exact Hnew].
Defined.

Lemma load_failure_keeps_the_store_witness :
  load_attempt P
    (on_disk [] {["t.db" := Exn PermissionError "Permission denied"]})
  = LoadError (Exn PermissionError "Permission denied")
  ∧ (Core.load P
       (on_disk [] {["t.db" := Exn PermissionError "Permission denied"]})).1
    = Raise (Exn PermissionError "Permission denied")
  ∧ load_attempt P (on_disk [Byte.x01] ∅)
    = LoadError (Exn UnpicklingError "invalid load key")
  ∧ (Core.load P (on_disk [Byte.x01] ∅)).1 = Return tt.
Proof.
  split; [reflexivity|].
  pose proof (load_failure_keeps_the_store P
                (on_disk [] {["t.db" := Exn PermissionError "Permission denied"]})
                (Exn PermissionError "Permission denied") eq_refl)
    as (_ & _ & _ & _ & Hraise & _).
  split; [exact Hraise|]. split; [reflexivity|].
  pose proof (load_failure_keeps_the_store P (on_disk [Byte.x01] ∅)
                (Exn UnpicklingError "invalid load key") eq_refl)
    as (_ & _ & _ & _ & Hret & _).
  exact Hret.
Defined.

Lemma failed_save_and_the_file_witness :
  denied unpicklable.2 !! "t.db" = None
  ∧ pickle_dump P (entries unpicklable)
    = DumpFailed (Exn PicklingError "Can't pickle") []
  ∧ files unpicklable.2 !! "t.db" = Some [Byte.x01; Byte.x61; Byte.x05]
  ∧ files (Core.save P unpicklable).2.2 !! "t.db" = Some [].
Proof.
  split; [reflexivity|]. split; [reflexivity|]. split; [reflexivity|].
  pose proof (failed_save_and_the_file P unpicklable
                (Exn PicklingError "Can't pickle")) as (Hdump & _).
  exact (proj1 (Hdump [] eq_refl eq_refl)).
Defined.
End PersistWitnesses.

(** ** Entering and leaving a [with] block *)
Section WithBlock.
Variable P : pickler.
Implicit Types (st : VariableDb * world (gset string)).

Lemma enter_eval st :
  Core.__enter__ P st =
    match files st.2 !! filename st.1 with
    | None =>
        (Return tt, (st.1, set_unsaved (λ r, {[filename st.1]} ∪ r) st.2))
    | Some _ =>
        match Core.load P st with
        | (Return a, st') => (Return a, st')
        | (Raise e, st') =>
            (Raise e,
             (st'.1,
              set_log (λ l, l ++ [LogRecord ERROR
                                    "Failed to load file in __enter__"
                                    (Some e)]) st'.2))
        end
    end.
Proof.
  destruct st as [s w].
  unfold Core.__enter__, try_except, bind, liftW, os_path_exists, self, gets.
  simpl. destruct (files w !! filename s) as [b|]; simpl.
  - destruct (Core.load P (s, w)) as [[a|e] [s' w']]; [done|].
    by rewrite handles_exception.
  - done.
Qed.

(** X12.  Entering a store is not the same for a file that is missing
    and for one that cannot be read.  With no file, [__enter__] marks
    the store dirty and creates nothing.  With a file that loads, the
    entries are the loaded ones.  With a file whose load fails,
    [__enter__] returns normally with the entries unchanged when
    [load] handles the failure, and logs and raises the exception
    again when [load] does not. *)
Theorem enter_by_the_state_of_the_file st :
  match files st.2 !! filename st.1 with
  | None =>
      (Core.__enter__ P st).1 = Return tt
      ∧ files (Core.__enter__ P st).2.2 = files st.2
      ∧ log (Core.__enter__ P st).2.2 = log st.2
      ∧ entries (Core.__enter__ P st).2 = entries st
      ∧ filename st.1 ∈ unsaved_files (Core.__enter__ P st).2.2
  | Some _ =>
      match load_attempt P st with
      | LoadedDict d =>
          (Core.__enter__ P st).1 = Return tt
          ∧ entries (Core.__enter__ P st).2 = d
          ∧ log (Core.__enter__ P st).2.2 = log st.2
      | LoadError e =>
          entries (Core.__enter__ P st).2 = entries st
          ∧ files (Core.__enter__ P st).2.2 = files st.2
          ∧ length (log (Core.__enter__ P st).2.2) = S (length (log st.2))
          ∧ (Core.__enter__ P st).1
            = if handles [FileNotFoundError; UnpicklingError; ValueError] e
              then Return tt else Raise e
      end
  end.
Proof.
  rewrite enter_eval.
  destruct (files st.2 !! filename st.1) as [b|] eqn:Hf.
  - destruct (load_attempt P st) as [d|e] eqn:Hl.
    + destruct (load_attempt_dict P st d Hl) as (b' & Hf' & Hden & Hload).
      rewrite (load_dict P st b' d Hf' Hden Hload). simpl.
      split; [done|]. split; [apply deref_alloc_new|done].
    + rewrite (load_error P st e Hl).
      destruct (handles _ e); simpl;
        (repeat split; [by rewrite length_app, Nat.add_1_r]).
  - simpl. repeat split. set_solver.
Qed.

(** X13.  An empty [with] block destroys a file that [load] cannot
    read.  When the file of the store holds a pickle that is corrupt
    or is not a dict, the failure is logged by [load], [__enter__]
    returns normally, and [__exit__] saves the entries of the store
    over the file: what the file held is replaced by the pickled
    entries, and the path is no longer registered. *)
Theorem with_block_overwrites_unreadable_file st b e b' :
  files st.2 !! filename st.1 = Some b →
  denied st.2 !! filename st.1 = None →
  load_attempt P st = LoadError e →
  handles [FileNotFoundError; UnpicklingError; ValueError] e = true →
  pickle_dump P (entries st) = Dumped b' →
  (with_pass P st).1 = Return tt
  ∧ files (with_pass P st).2.2 !! filename st.1 = Some b'
  ∧ entries (with_pass P st).2 = entries st
  ∧ log (with_pass P st).2.2 = log st.2 ++ [load_failed (filename st.1) e]
  ∧ filename st.1 ∉ unsaved_files (with_pass P st).2.2.
Proof.
  intros Hf Hden Hl He Hdump.
  unfold with_pass, with_, bind, ret.
  rewrite enter_eval, Hf, (load_error P st e Hl), He.
  set (st1 := (st.1, set_log (λ l, l ++ [load_failed (filename st.1) e]) st.2)).
  rewrite exit_eval.
  rewrite (save_dumped P st1 b' Hden Hdump). simpl.
  repeat split; [apply lookup_insert_eq|set_solver].
Qed.

(** X14.  What [__exit__] saves, [__enter__] of a store on the same
    path reads back: when the entries are serializable and [open]
    accepts the path, entering any store on that path after the exit
    returns normally with entries equal by value to the saved ones. *)
Theorem exit_then_enter_round_trip st other :
  serializable P (entries st) →
  denied st.2 !! filename st.1 = None →
  filename other = filename st.1 →
  (Core.__enter__ P (other, (Core.__exit__ P st).2.2)).1 = Return tt
  ∧ dict_eqv
      (entries (Core.__enter__ P (other, (Core.__exit__ P st).2.2)).2)
      (entries st).
Proof.
  intros (b & d' & Hdump & Hload & Heqv) Hden Hother.
  rewrite exit_eval, (save_dumped P st b Hden Hdump). cbn [fst snd].
  set (w1 := set_unsaved _ _).
  assert (files w1 !! filename other = Some b) as Hf.
  { rewrite Hother. apply lookup_insert_eq. }
  assert (denied w1 !! filename other = None) as Hd by by rewrite Hother.
  rewrite enter_eval. cbn [fst snd]. rewrite Hf.
  rewrite (load_dict P (other, w1) b d' Hf Hd Hload). cbn [fst snd].
  split; [done|].
  match goal with |- dict_eqv ?x _ => replace x with d' end; [done|].
  symmetry. apply deref_alloc_new.
Qed.
End WithBlock.

Section SweepMore.
Variable P : pickler.
Implicit Types (w : world (gset string)).

Lemma sweep_path_eval p w :
  Core.sweep_path P p w =
    match with_ (Core.__enter__ P) (Core.__exit__ P)
            (λ _, Core.load P >> Core.save P)
            (Instance (check_file_name p) (length (heap w)) globals_loc,
             set_unsaved (λ r, {[check_file_name p]} ∪ r)
               (set_heap (λ h, h ++ [[]]) w)) with
    | (Return _, (_, w')) => (Return tt, w')
    | (Raise e, (_, w')) => (Raise e, w')
    end.
Proof.
  unfold Core.sweep_path, bind, call, Core.__init__, alloc, ret, modify.
  simpl. by destruct (with_ _ _ _ _) as [[?|?] [? ?]].
Qed.

(** X15.  The sweep saves what is on disk, not what the stores hold.
    For a registered path with no file, one round of
    [save_all_open_files] writes the pickle of an empty dict and takes
    the path out of the registry, whatever entries the stores of the
    program hold for that path; their dict objects are not read and
    stay as they are. *)
Theorem sweep_saves_the_disk_not_the_store p w b0 :
  files w !! check_file_name p = None →
  denied w !! check_file_name p = None →
  pickle_dump P [] = Dumped b0 →
  (Core.sweep_path P p w).1 = Return tt
  ∧ files (Core.sweep_path P p w).2 !! check_file_name p = Some b0
  ∧ (check_file_name p ∉ unsaved_files (Core.sweep_path P p w).2)
  ∧ (∀ l, l < length (heap w) →
       deref (Core.sweep_path P p w).2 l = deref w l)
  ∧ length (log (Core.sweep_path P p w).2) = S (length (log w)).
Proof.
  intros Hf Hden Hdump. rewrite sweep_path_eval.
  set (db := Instance (check_file_name p) (length (heap w)) globals_loc).
  set (w0 := set_unsaved _ (set_heap (λ h, h ++ [[]]) w)).
  assert (entries (db, w0) = []) as Hent by apply deref_alloc_new.
  assert (files (db, w0).2 !! filename (db, w0).1 = None) as Hf0 by exact Hf.
  unfold with_, bind, ret.
  rewrite enter_eval, Hf0. cbn [fst snd].
  set (st1 := (db, set_unsaved _ w0)).
  assert (load_attempt P st1
          = LoadError (Exn FileNotFoundError "No such file or directory"))
    as Hl.
  { unfold load_attempt.
    change (files st1.2 !! filename st1.1) with (files w !! check_file_name p).
    by rewrite Hf. }
  rewrite (load_error P st1 _ Hl).
  change (handles _ (Exn FileNotFoundError _)) with true. cbv iota.
  set (st2 := (st1.1, set_log _ st1.2)).
  assert (denied st2.2 !! filename st2.1 = None) as Hden2 by done.
  assert (pickle_dump P (entries st2) = Dumped b0) as Hdump2.
  { change (entries st2) with (entries (db, w0)). by rewrite Hent. }
  rewrite (save_dumped P st2 b0 Hden2 Hdump2).
  set (st3 := (st2.1, _)).
  rewrite exit_eval.
  assert (denied st3.2 !! filename st3.1 = None) as Hden3 by done.
  assert (pickle_dump P (entries st3) = Dumped b0) as Hdump3.
  { change (entries st3) with (entries (db, w0)). by rewrite Hent. }
  rewrite (save_dumped P st3 b0 Hden3 Hdump3). cbn [fst snd].
  split; [done|]. split; [apply lookup_insert_eq|].
  split; [simpl; set_solver|]. split.
  - intros l Hl'. unfold deref. simpl. by rewrite lookup_app_l.
  - simpl. by rewrite length_app, Nat.add_1_r.
Qed.
End SweepMore.

Global Instance registry_only_self_preorder : PreOrder registry_only_self.
Proof.
  split.
  - by intros st.
  - intros st1 st2 st3 (Hf1 & Hr1) (Hf2 & Hr2). unfold registry_only_self.
    rewrite Hf1 in Hf2, Hr2. split; congruence.
Qed.

Section SweepRegistry.
Variable P : pickler.
Implicit Types (st : VariableDb * world (gset string)).

Ltac only_self_done :=
  unfold registry_only_self; simpl; split; [done|set_solver].

Lemma add_to_unsaved_only_self : preserves registry_only_self Core.add_to_unsaved.
Proof. intros [s w]. only_self_done. Qed.

Lemma load_only_self : preserves registry_only_self (Core.load P).
Proof. intros [s w]. run_method; only_self_done. Qed.

Lemma save_only_self : preserves registry_only_self (Core.save P).
Proof. intros [s w]. run_method; only_self_done. Qed.

Lemma log_only_self lv t c :
  preserves registry_only_self (liftW (R := gset string) (logging lv t c)).
Proof. intros [s w]. only_self_done. Qed.

Lemma enter_only_self : preserves registry_only_self (Core.__enter__ P).
Proof.
  apply (preserves_try_except _).
  - apply (preserves_bind _); [apply (preserves_gets _)|]. intros s.
    apply (preserves_bind _); [by intros [? ?]|]. intros present.
    destruct present; simpl; [apply load_only_self|apply add_to_unsaved_only_self].
  - intros e. apply (preserves_bind _); [apply log_only_self|].
    intros _. apply (preserves_raise _).
Qed.

Lemma load_dumpable st :
  redumpable P → dumpable P st → dumpable P (Core.load P st).2.
Proof.
  intros [_ Hre] Hd. destruct (load_attempt P st) as [d|e] eqn:Hl.
  - destruct (load_attempt_dict P st d Hl) as (b & Hf & Hden & Hload).
    rewrite (load_dict P st b d Hf Hden Hload). unfold dumpable.
    replace (entries _) with d; [by apply (Hre b)|].
    symmetry. apply deref_alloc_new.
  - rewrite (load_error P st e Hl). by destruct (handles _ e).
Qed.

Lemma save_entries st : entries (Core.save P st).2 = entries st.
Proof. destruct st as [s w]. run_method; done. Qed.

Lemma enter_dumpable st :
  redumpable P → dumpable P st → dumpable P (Core.__enter__ P st).2.
Proof.
  intros Hre Hd. rewrite enter_eval.
  destruct (files st.2 !! filename st.1); [|done].
  pose proof (load_dumpable st Hre Hd) as Hl.
  by destruct (Core.load P st) as [[?|?] [? ?]].
Qed.

(** One round that ends normally takes its path, and nothing else, out
    of the registry. *)
Lemma sweep_path_unregisters p w w' :
  redumpable P →
  denied w !! check_file_name p = None →
  Core.sweep_path P p w = (Return tt, w') →
  unsaved_files w' = unsaved_files w ∖ {[check_file_name p]}.
Proof.
  intros Hre Hden. rewrite sweep_path_eval.
  set (db := Instance (check_file_name p) (length (heap w)) globals_loc).
  set (w0 := set_unsaved _ (set_heap (λ h, h ++ [[]]) w)).
  destruct (with_ _ _ _ (db, w0)) as [[a|e] [db' w1]] eqn:Hwith; [|done].
  intros [= ->].
  apply with_returns in Hwith as (v & st1 & st2 & Henter & Hbody & Hexit).
  assert (dumpable P (db, w0)) as Hd0.
  { destruct Hre as [[b0 Hb0] _]. exists b0.
    replace (entries (db, w0)) with ([] : pydict); [done|].
    symmetry. apply deref_alloc_new. }
  pose proof (enter_dumpable (db, w0) Hre Hd0) as Hd1.
  pose proof (enter_only_self (db, w0)) as [Hf1 Hr1].
  pose proof (enter_files P (db, w0)) as (_ & Hden1 & _).
  rewrite Henter in Hd1, Hf1, Hr1, Hden1. cbn [fst snd] in *.
  assert (dumpable P st2 ∧ registry_only_self st1 st2
          ∧ denied st2.2 = denied st1.2) as (Hd2 & [Hf2 Hr2] & Hden2).
  { unfold bind in Hbody.
    pose proof (load_dumpable st1 Hre Hd1) as Hdl.
    pose proof (load_only_self st1) as Hrl.
    pose proof (load_files P st1) as (_ & Hdenl & _).
    destruct (Core.load P st1) as [[[]|e] stl]; [|done]. cbn [fst snd] in *.
    pose proof (save_entries stl) as Hes.
    pose proof (save_only_self stl) as Hrs.
    pose proof (save_files P stl) as (_ & Hdens & _).
    rewrite Hbody in Hes, Hrs, Hdens. cbn [fst snd] in *.
    split; [|split; [by etrans|congruence]].
    destruct Hdl as [b Hb]. exists b. by rewrite Hes. }
  destruct Hd2 as [b2 Hb2].
  assert (denied st2.2 !! filename st2.1 = None) as Hden3.
  { rewrite Hden2, Hden1, Hf2, Hf1. exact Hden. }
  rewrite exit_eval, (save_dumped P st2 b2 Hden3 Hb2) in Hexit.
  simplify_eq/=. rewrite Hf2, Hf1. simpl.
  rewrite Hf1 in Hr2. simpl in *.
  apply set_eq. intros q. set_solver.
Qed.

Lemma save_all_in_unregisters ps : ∀ w w',
  redumpable P →
  (∀ p, p ∈ ps → denied w !! check_file_name p = None) →
  Core.save_all_in P ps w = (Return tt, w') →
  unsaved_files w'
  = unsaved_files w ∖ list_to_set (check_file_name <$> ps).
Proof.
  induction ps as [|p ps IH]; intros w w' Hre Hden Hrun.
  - unfold Core.save_all_in, for_each, ret in Hrun. injection Hrun as <-.
    rewrite fmap_nil, list_to_set_nil. by rewrite difference_empty_L.
  - rewrite save_all_in_cons in Hrun.
    destruct (Core.sweep_path P p w) as [[[]|e] w1] eqn:Hp; [|done].
    pose proof (sweep_path_files P p w) as (Hd1 & _). rewrite Hp in Hd1.
    simpl in Hd1.
    rewrite (IH w1 w' Hre); [|by intros q Hq; rewrite Hd1; apply Hden; right|done].
    rewrite (sweep_path_unregisters p w w1 Hre); [|by apply Hden; left|done].
    csimpl. set_solver.
Qed.

(** X16.  A sweep that ends normally leaves no path registered, when
    every registered path ends in [.db] (as the paths that the
    constructor registers do), [open] refuses none of them, and the
    pickler can write what it reads back. *)
Theorem sweep_leaves_nothing_dirty w w' :
  redumpable P →
  (∀ p, p ∈ unsaved_files w →
        endswith p ".db" = true ∧ denied w !! p = None) →
  Core.save_all_open_files P w = (Return tt, w') →
  unsaved_files w' = ∅.
Proof.
  intros Hre Hpaths Hrun.
  assert (∀ p, p ∈ unsaved_files w → check_file_name p = p) as Hnorm.
  { intros p [Hp _]%Hpaths. unfold check_file_name. by rewrite Hp. }
  change (Core.save_all_open_files P w)
    with (Core.save_all_in P (elements (unsaved_files w)) w) in Hrun.
  rewrite (save_all_in_unregisters (elements (unsaved_files w)) w w' Hre);
    [| |done].
  - apply set_eq. intros q. split; [|set_solver].
    intros [Hq Hout]%elem_of_difference. destruct Hout.
    apply elem_of_list_to_set, list_elem_of_fmap. exists q.
    split; [by rewrite Hnorm|by apply elem_of_elements].
  - intros p Hp%elem_of_elements. rewrite (Hnorm p Hp). by apply Hpaths.
Qed.
End SweepRegistry.

(** ** More on [variabledb.py] *)
Section ListRemove.
Implicit Types (l : list string) (x q : string).

Lemma list_remove_other x q l :
  q ≠ x → q ∈ Legacy.list_remove x l ↔ q ∈ l.
Proof.
  intros Hne. induction l as [|y l IH]; simpl; [done|].
  destruct (String.eqb_spec x y) as [->|Hxy].
  - rewrite elem_of_cons. naive_solver.
  - rewrite !elem_of_cons, IH. done.
Qed.

Lemma list_remove_subseteq x l : Legacy.list_remove x l ⊆ l.
Proof.
  induction l as [|y l IH]; simpl; [done|].
  destruct (String.eqb_spec x y) as [->|Hxy]; set_solver.
Qed.

Lemma list_remove_NoDup x l : NoDup l → NoDup (Legacy.list_remove x l).
Proof.
  induction l as [|y l IH]; simpl; [done|].
  intros [Hy Hl]%NoDup_cons.
  destruct (String.eqb_spec x y) as [->|Hxy]; [done|].
  apply NoDup_cons. split; [|by apply IH].
  intros Hin. apply Hy. by apply (list_remove_subseteq x l).
Qed.

Lemma list_remove_gone x l : NoDup l → x ∉ Legacy.list_remove x l.
Proof.
  induction l as [|y l IH]; simpl; [by intros _ ?%elem_of_nil|].
  intros [Hy Hl]%NoDup_cons.
  destruct (String.eqb_spec x y) as [->|Hxy]; [done|].
  rewrite not_elem_of_cons. split; [done|by apply IH].
Qed.
End ListRemove.

Section LegacyMore.
Variable P : pickler.
Implicit Types (st : VariableDb * world (list string)).

(** X17.  In [variabledb.py], as long as no path is listed twice, a
    save that goes through takes the path of the store out of the
    list and leaves the other paths listed; and marking a store dirty
    never lists a path twice.  (Only the constructor appends without
    looking.) *)
Theorem legacy_save_unregisters_single_listing st :
  NoDup (unsaved_files st.2) →
  NoDup (unsaved_files (Legacy.add_to_unsaved st).2.2)
  ∧ filename st.1 ∈ unsaved_files (Legacy.add_to_unsaved st).2.2
  ∧ NoDup (unsaved_files (Legacy.save P st).2.2)
  ∧ (∀ b, save_attempt P st = Saved b →
       (filename st.1 ∉ unsaved_files (Legacy.save P st).2.2)
       ∧ ∀ q, q ≠ filename st.1 →
           (q ∈ unsaved_files (Legacy.save P st).2.2 ↔ q ∈ unsaved_files st.2)).
Proof.
  intros Hnd. split; [|split; [|split]].
  - destruct st as [s w]. simpl in *. case_bool_decide; [done|].
    apply NoDup_app. split; [done|]. split; [|apply NoDup_singleton].
    by intros x Hx ->%list_elem_of_singleton.
  - destruct st as [s w]. simpl. case_bool_decide; set_solver.
  - pose proof (legacy_save_registry P st) as Hreg.
    destruct (save_attempt P st); [destruct Hreg as [_ ->]|by rewrite Hreg].
    case_bool_decide; [by apply list_remove_NoDup|done].
  - intros b Hs. pose proof (legacy_save_registry P st) as Hreg.
    rewrite Hs in Hreg. destruct Hreg as [_ ->].
    case_bool_decide as Hin.
    + split; [by apply list_remove_gone|].
      intros q Hq. by apply list_remove_other.
    + done.
Qed.

Lemma legacy_load_error st e :
  load_attempt P st = LoadError e →
  Legacy.load P st =
    if handles [FileNotFoundError; UnpicklingError; ValueError] e
    then (Return tt,
          (st.1, set_log (λ l, l ++ [load_failed (filename st.1) e]) st.2))
    else (Raise e, st).
Proof.
  destruct st as [s w]. unfold load_attempt. simpl. intros H.
  unfold Legacy.load, load, try_except, bind, liftW, open_rb, self, gets, raise.
  simpl. repeat case_match; simplify_eq/=; try done.
  all: congruence.
Qed.

Lemma legacy_enter_eval st :
  Legacy.__enter__ P st =
    match files st.2 !! filename st.1 with
    | None =>
        (Return true,
         (st.1,
          set_unsaved (λ r, if bool_decide (filename st.1 ∈ r) then r
                            else r ++ [filename st.1]) st.2))
    | Some _ =>
        match Legacy.load P st with
        | (Return _, st') => (Return true, st')
        | (Raise e, st') =>
            (Return false,
             (st'.1,
              set_log (λ l, l ++ [LogRecord ERROR
                                    "Failed to save on context exit"
                                    (Some e)]) st'.2))
        end
    end.
Proof.
  destruct st as [s w].
  unfold Legacy.__enter__, try_except, bind, liftW, os_path_exists, self, gets,
    ret.
  simpl. destruct (files w !! filename s) as [b|]; simpl; [|done].
  destruct (Legacy.load P (s, w)) as [[a|e] [s' w']]; [done|].
  by rewrite handles_exception.
Qed.

Lemma legacy_save_dumped st b :
  denied st.2 !! filename st.1 = None →
  pickle_dump P (entries st) = Dumped b →
  (Legacy.save P st).1 = Return tt
  ∧ (Legacy.save P st).2.1 = st.1
  ∧ files (Legacy.save P st).2.2
    = <[filename st.1 := b]> (<[filename st.1 := []]> (files st.2))
  ∧ heap (Legacy.save P st).2.2 = heap st.2
  ∧ denied (Legacy.save P st).2.2 = denied st.2.
Proof.
  intros H1 H2. destruct st as [s w].
  unfold Legacy.save, try_except, bind, liftW, open_wb, self, data_dict, gets.
  simpl in *. rewrite H1. simpl.
  change (entries (s, set_files _ w)) with (entries (s, w)). by rewrite H2.
Qed.

Lemma legacy_sweep_path_eval p (w : world (list string)) :
  Legacy.sweep_path P p w =
    match with_ (Legacy.__enter__ P) (Legacy.__exit__ P)
            (λ file : bool,
               if file then Legacy.save P
               else raise (Exn AttributeError
                             "'NoneType' object has no attribute 'save'"))
            (Instance (check_file_name p) (length (heap w)) globals_loc,
             set_unsaved (λ r, r ++ [check_file_name p])
               (set_heap (λ h, h ++ [[]]) w)) with
    | (Return _, (_, w')) => (Return tt, w')
    | (Raise e, (_, w')) => (Raise e, w')
    end.
Proof.
  unfold Legacy.sweep_path, bind, call, Legacy.__init__, alloc, ret, modify.
  simpl. by destruct (with_ _ _ _ _) as [[?|?] [? ?]].
Qed.

(** X18.  In [variabledb.py], [__enter__] never raises: when the load
    raises an exception that [load] does not handle, it is logged and
    [__enter__] returns [None].  For the round of the sweep on such a
    file this means that the caller gets an [AttributeError] in place
    of the exception of the load, and that the file is overwritten
    with the pickle of an empty dict on the way out. *)
Theorem legacy_enter_hides_load_failure p (w : world (list string)) b e b0 :
  files w !! check_file_name p = Some b →
  denied w !! check_file_name p = None →
  pickle_load P b = LoadFailed e →
  handles [FileNotFoundError; UnpicklingError; ValueError] e = false →
  pickle_dump P [] = Dumped b0 →
  (∀ s, filename s = check_file_name p →
        (Legacy.__enter__ P (s, w)).1 = Return false
        ∧ entries (Legacy.__enter__ P (s, w)).2 = entries (s, w)
        ∧ files (Legacy.__enter__ P (s, w)).2.2 = files w)
  ∧ (Legacy.sweep_path P p w).1
    = Raise (Exn AttributeError "'NoneType' object has no attribute 'save'")
  ∧ files (Legacy.sweep_path P p w).2 !! check_file_name p = Some b0.
Proof.
  intros Hf Hden Hload He Hdump.
  assert (∀ s (w1 : world (list string)), filename s = check_file_name p →
            files w1 = files w → denied w1 = denied w →
            load_attempt P (s, w1) = LoadError e) as Hl.
  { intros s w1 Hs Hf1 Hd1. unfold load_attempt. simpl.
    by rewrite Hs, Hf1, Hd1, Hf, Hden, Hload. }
  split.
  - intros s Hs. rewrite legacy_enter_eval. simpl. rewrite Hs, Hf.
    rewrite (legacy_load_error (s, w) e (Hl s w Hs eq_refl eq_refl)), He.
    done.
  - set (db := Instance (check_file_name p) (length (heap w)) globals_loc).
    set (w0 := set_unsaved (λ r, r ++ [check_file_name p])
                 (set_heap (λ h, h ++ [[]]) w)).
    set (st1 := (db, set_log (λ l, l ++ [LogRecord ERROR
                   "Failed to save on context exit" (Some e)]) w0)).
    assert (pickle_dump P (entries st1) = Dumped b0) as Hdump1.
    { replace (entries st1) with ([] : pydict); [done|].
      symmetry. apply deref_alloc_new. }
    destruct (legacy_save_dumped st1 b0 Hden Hdump1) as (Hret & _ & Hfiles & _).
    assert (with_ (Legacy.__enter__ P) (Legacy.__exit__ P)
              (λ file : bool,
                 if file then Legacy.save P
                 else raise (Exn AttributeError
                               "'NoneType' object has no attribute 'save'"))
              (db, w0)
            = (Raise (Exn AttributeError
                        "'NoneType' object has no attribute 'save'"),
               (Legacy.save P st1).2)) as Hwith.
    { unfold with_, bind. rewrite legacy_enter_eval.
      change (files (db, w0).2 !! filename (db, w0).1)
        with (files w !! check_file_name p). rewrite Hf.
      rewrite (legacy_load_error (db, w0) e (Hl db w0 eq_refl eq_refl eq_refl)), He.
      cbn [fst snd]. fold st1. unfold raise at 1.
      unfold Legacy.__exit__, try_except.
      by destruct (Legacy.save P st1) as [[[]|e'] [s2 w2]]. }
    rewrite legacy_sweep_path_eval. fold db w0. rewrite Hwith.
    destruct (Legacy.save P st1) as [r [s2 w2]]. simpl in *.
    split; [done|]. rewrite Hfiles. apply lookup_insert_eq.
Qed.
End LegacyMore.

(** ** File names once more *)


(** ** What a store writes to *)

Global Instance others_kept_preorder {R} : PreOrder (@others_kept R).
Proof.
  split.
  - intros st Hv. split_and!; [done|done|by left|done].
  - intros st1 st2 st3 H12 H23 Hv.
    destruct (H12 Hv) as (Hv2 & Hlen12 & Hd12 & Hk12).
    destruct (H23 Hv2) as (Hv3 & Hlen23 & Hd23 & Hk23).
    split; [done|]. split; [lia|]. split.
    + destruct Hd23 as [->|?]; [done|right; lia].
    + intros l Hl Hne. rewrite Hk23; [by apply Hk12|lia|].
      destruct Hd12 as [->|?]; [done|lia].
Qed.

Section OthersKept.
Variable P : pickler.

Lemma others_kept_write (s : VariableDb) (w w' : world (gset string)) d :
  heap w' = <[data s := d]> (heap w) →
  others_kept (s, w) (s, w').
Proof.
  intros Hh (Hd & Hs & Hne). simpl in *. unfold valid, deref. simpl.
  rewrite Hh, length_insert. split_and!; [done..|by left|].
  intros l Hl Hl'. by rewrite list_lookup_insert_ne.
Qed.

Lemma others_kept_same_heap (s : VariableDb) (w w' : world (gset string)) :
  heap w' = heap w → others_kept (s, w) (s, w').
Proof.
  intros Hh Hv. unfold valid, deref in *. simpl in *. rewrite Hh.
  split_and!; first [done | apply Hv | by left].
Qed.

Lemma others_kept_rebind (s : VariableDb) (w w' : world (gset string)) d :
  heap w' = heap w ++ [d] →
  others_kept (s, w) (Instance (filename s) (length (heap w)) (scope s), w').
Proof.
  intros Hh (Hd & Hs & Hne). simpl in *. unfold valid, deref. simpl.
  rewrite Hh, length_app. simpl. split_and!; [lia..|by right|].
  intros l Hl Hl'. by rewrite lookup_app_l.
Qed.

Ltac others_kept_done :=
  first [ by apply others_kept_same_heap
        | by eapply others_kept_write
        | by eapply others_kept_rebind ].

Lemma add_to_unsaved_others : preserves others_kept Core.add_to_unsaved.
Proof. intros [s w]. by apply others_kept_same_heap. Qed.

Lemma add_others v : preserves others_kept (Core.add v).
Proof. intros [s w]. run_method; others_kept_done. Qed.

Lemma delete_others v : preserves others_kept (Core.delete v).
Proof. intros [s w]. run_method; others_kept_done. Qed.

Lemma replace_others v : preserves others_kept (Core.replace v).
Proof. intros [s w]. run_method; others_kept_done. Qed.

Lemma clear_others : preserves others_kept Core.clear.
Proof. intros [s w]. run_method; others_kept_done. Qed.

Lemma add_by_name_others n : preserves others_kept (Core.add_by_name n).
Proof. intros [s w]. run_method; others_kept_done. Qed.

Lemma load_others : preserves others_kept (Core.load P).
Proof. intros [s w]. run_method; others_kept_done. Qed.

Lemma save_others : preserves others_kept (Core.save P).
Proof. intros [s w]. run_method; others_kept_done. Qed.

Lemma log_others lv t c :
  preserves others_kept (liftW (R := gset string) (logging lv t c)).
Proof. intros [s w]. by apply others_kept_same_heap. Qed.

Lemma add_multiple_others vs : preserves others_kept (Core.add_multiple vs).
Proof.
  apply (preserves_try_except _).
  - apply (preserves_bind _).
    + apply (preserves_for_each _). apply add_others.
    + intros _. apply add_to_unsaved_others.
  - intros e. apply log_others.
Qed.

Lemma enter_others : preserves others_kept (Core.__enter__ P).
Proof.
  apply (preserves_try_except _).
  - apply (preserves_bind _); [apply (preserves_gets _)|]. intros s.
    apply (preserves_bind _); [by intros [? ?]|]. intros present.
    destruct present; simpl; [apply load_others|apply add_to_unsaved_others].
  - intros e. apply (preserves_bind _); [apply log_others|].
    intros _. apply (preserves_raise _).
Qed.

Lemma exit_others : preserves others_kept (Core.__exit__ P).
Proof.
  apply (preserves_try_except _); [apply save_others|].
  intros e. apply log_others.
Qed.

Lemma run_op_others o : preserves others_kept (run_op P o).
Proof.
  destruct o; simpl.
  - by intros [? ?].
  - apply add_others.
  - apply add_by_name_others.
  - apply add_multiple_others.
  - apply delete_others.
  - apply replace_others.
  - apply save_others.
  - apply load_others.
  - apply clear_others.
  - apply enter_others.
  - apply exit_others.
Qed.

Lemma run_ops_others ops st : others_kept st (run_ops P ops st).
Proof.
  revert st. induction ops as [|o ops IH]; intros st; simpl; [done|].
  etrans; [apply run_op_others|apply IH].
Qed.

(** X20.  A store writes to its own entries only.  Through any
    operations run on a store, every other dict object that existed
    before, such as the entries of another store (on the same path or
    not), the scope and the module globals, keeps its items. *)
Theorem store_writes_only_its_own_entries ops st :
  valid st →
  ∀ l, l < length (heap st.2) → l ≠ data st.1 →
       deref (run_ops P ops st).2 l = deref st.2 l.
Proof.
  intros Hv. by destruct (run_ops_others ops st Hv) as (_ & _ & _ & Hk).
Qed.
End OthersKept.

(** ** The sweep of [variabledb.py] once more *)
Section LegacyLoopMore.
Variable P : pickler.
Implicit Types (w : world (list string)).


End LegacyLoopMore.

(** ** The sample pickler *)
Section SamplePickler.
Import Sample Scenario.

Lemma string_of_list_byte_length (l : list Byte.byte) :
  String.length (String.string_of_list_byte l) = length l.
Proof.
  unfold String.string_of_list_byte.
  induction l as [|b l IH]; simpl; [done|]. by rewrite IH.
Qed.

Lemma decode_encodes fuel : ∀ next b d,
  decode fuel next b = Some d → ∃ b', encode d = Some b'.
Proof.
  induction fuel as [|fuel IH]; intros next b d.
  - destruct b; simpl; [|done]. intros [= <-]. by eexists.
  - destruct b as [|n b]; simpl; [intros [= <-]; by eexists|].
    destruct (drop (Byte.to_nat n) b) as [|v b''] eqn:Hdrop; [done|].
    destruct (decode fuel (S next) b'') as [rest|] eqn:Hrest; [|done].
    simpl. intros [= <-]. destruct (IH _ _ _ Hrest) as [b' Hb'].
    simpl. rewrite bool_decide_true.
    + rewrite Hb'. by eexists.
    + rewrite string_of_list_byte_length, length_take.
      pose proof (Byte.to_nat_bounded n). pose proof (Byte.to_nat_bounded v).
      lia.
Qed.

Lemma sample_redumpable : redumpable P.
Proof.
  split; [by exists []|]. intros b d. unfold P, undump, dump. simpl.
  destruct (decode (length b) 1000 b) as [d0|] eqn:Hd; [|done].
  intros [= <-]. destruct (decode_encodes _ _ _ _ Hd) as [b' ->]. by eexists.
Defined.
End SamplePickler.

(** ** The further statements on sample stores *)
Section MoreWitnesses.
Import Sample Scenario Disk.

Lemma with_block_overwrites_unreadable_file_witness :
  files (on_disk [Byte.x01] ∅).2 !! "t.db" = Some [Byte.x01]
  ∧ load_attempt P (on_disk [Byte.x01] ∅)
    = LoadError (Exn UnpicklingError "invalid load key")
  ∧ pickle_dump P (entries (on_disk [Byte.x01] ∅))
    = Dumped [Byte.x01; Byte.x61; Byte.x01]
  ∧ files (with_pass P (on_disk [Byte.x01] ∅)).2.2 !! "t.db"
    = Some [Byte.x01; Byte.x61; Byte.x01].
Proof.
  split; [reflexivity|]. split; [reflexivity|]. split; [reflexivity|].
  apply (with_block_overwrites_unreadable_file P (on_disk [Byte.x01] ∅)
           [Byte.x01] (Exn UnpicklingError "invalid load key")
           [Byte.x01; Byte.x61; Byte.x01]);
    reflexivity.
Defined.

Lemma on_disk_serializable junk : serializable P (entries (on_disk junk ∅)).
Proof.
  exists [Byte.x01; Byte.x61; Byte.x01], [("a", PyObj 1000 (PInt 1))].
  split; [reflexivity|]. split; [reflexivity|].
  intros k. simpl. by destruct (String.eqb k "a").
Defined.

Lemma exit_then_enter_round_trip_witness :
  serializable P (entries (on_disk [] ∅))
  ∧ denied (on_disk [] ∅).2 !! "t.db" = None
  ∧ dict_eqv
      (entries (Core.__enter__ P
                  (Instance "t.db" 0 0,
                   (Core.__exit__ P (on_disk [] ∅)).2.2)).2)
      [("a", one)].
Proof.
  split; [apply on_disk_serializable|]. split; [reflexivity|].
  apply (exit_then_enter_round_trip P (on_disk [] ∅) (Instance "t.db" 0 0)
           (on_disk_serializable []));
    reflexivity.
Defined.

Lemma sweep_saves_the_disk_not_the_store_witness :
  entries unsaved_store = [("a", one)]
  ∧ "a.db" ∈ unsaved_files unsaved_store.2
  ∧ files unsaved_store.2 !! "a.db" = None
  ∧ files (Core.sweep_path P "a.db" unsaved_store.2).2 !! "a.db" = Some []
  ∧ "a.db" ∉ unsaved_files (Core.sweep_path P "a.db" unsaved_store.2).2.
Proof.
  split; [reflexivity|]. split; [by apply (bool_decide_unpack _)|].
  split; [reflexivity|].
  assert (files unsaved_store.2 !! check_file_name "a.db" = None) as Hf
    by reflexivity.
  assert (denied unsaved_store.2 !! check_file_name "a.db" = None) as Hd
    by reflexivity.
  pose proof (sweep_saves_the_disk_not_the_store P "a.db" unsaved_store.2 []
                Hf Hd eq_refl) as (_ & Hfile & Hout & _).
  split; [exact Hfile|exact Hout].
Defined.

Lemma core_a_b_paths p :
  p ∈ unsaved_files core_a_b →
  endswith p ".db" = true ∧ denied core_a_b !! p = None.
Proof.
  assert (unsaved_files core_a_b = {["a.db"; "b.db"]}) as -> by by vm_compute.
  intros [->%elem_of_singleton| ->%elem_of_singleton]%elem_of_union; done.
Defined.

Lemma sweep_leaves_nothing_dirty_witness :
  redumpable P
  ∧ (∀ p, p ∈ unsaved_files core_a_b →
          endswith p ".db" = true ∧ denied core_a_b !! p = None)
  ∧ Core.save_all_open_files P core_a_b
    = (Return tt, (Core.save_all_open_files P core_a_b).2)
  ∧ unsaved_files (Core.save_all_open_files P core_a_b).2 = ∅.
Proof.
  assert (Core.save_all_open_files P core_a_b
          = (Return tt, (Core.save_all_open_files P core_a_b).2)) as Hrun.
  { by vm_compute. }
  split; [apply sample_redumpable|]. split; [apply core_a_b_paths|].
  split; [exact Hrun|].
  apply (sweep_leaves_nothing_dirty P core_a_b _ sample_redumpable
           core_a_b_paths Hrun).
Defined.

Lemma legacy_save_unregisters_single_listing_witness :
  NoDup (unsaved_files (Legacy.__init__ "a" None (start [] [])).2)
  ∧ save_attempt P (Instance "a.db" 1 0,
                    (Legacy.__init__ "a" None (start [] [])).2) = Saved []
  ∧ "a.db" ∉ unsaved_files
               (Legacy.save P (Instance "a.db" 1 0,
                  (Legacy.__init__ "a" None (start [] [])).2)).2.2.
Proof.
  assert (NoDup (unsaved_files (Legacy.__init__ "a" None (start [] [])).2))
    as Hnd by apply NoDup_singleton.
  split; [exact Hnd|]. split; [reflexivity|].
  pose proof (legacy_save_unregisters_single_listing P
                (Instance "a.db" 1 0, (Legacy.__init__ "a" None (start [] [])).2)
                Hnd) as (_ & _ & _ & Hsave).
  exact (proj1 (Hsave [] eq_refl)).
Defined.

Lemma legacy_enter_hides_load_failure_witness :
  files legacy_truncated !! check_file_name "a.db" = Some [Byte.x01]
  ∧ pickle_load truncating [Byte.x01]
    = LoadFailed (Exn EOFError "Ran out of input")
  ∧ (Legacy.sweep_path truncating "a.db" legacy_truncated).1
    = Raise (Exn AttributeError "'NoneType' object has no attribute 'save'")
  ∧ files (Legacy.sweep_path truncating "a.db" legacy_truncated).2
      !! check_file_name "a.db"
    = Some [].
Proof.
  split; [reflexivity|]. split; [reflexivity|].
  apply (legacy_enter_hides_load_failure truncating "a.db" legacy_truncated
           [Byte.x01] (Exn EOFError "Ran out of input") []);
    reflexivity.
Defined.

Lemma store_writes_only_its_own_entries_witness :
  valid (two_stores.1.2, two_stores.2)
  ∧ data two_stores.1.1 = 2
  ∧ data two_stores.1.2 = 3
  ∧ deref
      (run_ops P [OpAdd one; OpAddByName "b"; OpSave; OpClear; OpLoad]
         (two_stores.1.2, two_stores.2)).2 2
    = deref two_stores.2 2.
Proof.
  assert (valid (two_stores.1.2, two_stores.2)) as Hv.
  { unfold valid. simpl. lia. }
  split; [exact Hv|]. split; [reflexivity|]. split; [reflexivity|].
  apply (store_writes_only_its_own_entries P
           [OpAdd one; OpAddByName "b"; OpSave; OpClear; OpLoad]
           (two_stores.1.2, two_stores.2) Hv 2); simpl; lia.
Defined.

End MoreWitnesses.
